(** * tabpfn_client: session configuration and estimator facades

    A shallow embedding of [tabpfn_client/config.py] and
    [tabpfn_client/estimator.py].

    The Python code mutates one module-level object ([g_tabpfn_config]),
    talks to collaborators that live outside these two files (the service
    client, its two wrappers, the prompt agent, [shutil], sklearn and numpy)
    and raises exceptions.  The embedding therefore runs every operation in a
    small monad over a [World] (the global configuration, the file system and
    the chronological log of collaborator calls) whose results are either a
    value or a raised exception; what an operation mutated before it raised
    is kept, as in Python.  What a collaborator answers is not decided by
    this code: it is an argument, [Env]. *)

From Stdlib Require Import QArith.
From stdpp Require Import base strings list gmap.

Local Open Scope string_scope.

(** ** Python values *)

(** The exceptions that can leave the two modules. *)
Inductive exn : Type :=
| RuntimeError (msg : string)
| NotImplementedError (msg : string)
| ValueError (msg : string)
| KeyError (key : string)
| AttributeError (msg : string)
| NotFittedError
| AxisError
| CollaboratorError (code : nat).

Inductive outcome (A : Type) : Type :=
| Ret (a : A)
| Raise (e : exn).
Arguments Ret {A} a.
Arguments Raise {A} e.

(** Truth value of an attribute that holds [None], [True] or [False]. *)
Definition truthy (v : option bool) : bool :=
  match v with
  | Some b => b
  | None => false
  end.

(** Truth value of an attribute that holds [None] or a [str]. *)
Definition truthy_str (v : option string) : bool :=
  match v with
  | Some s => negb (String.eqb s "")
  | None => false
  end.

(** Numeric arrays, of one or two dimensions.  Entries are rationals: the
    order on array entries is all the code relies on. *)
Inductive ndarray : Type :=
| Arr1 (v : list Q)
| Arr2 (m : list (list Q)).

(** ** Collaborator objects

    [ServiceClient], [UserAuthenticationClient] and [InferenceClient] are
    imported by [config.py]; an object is known by the connection it was
    built over. *)
Record ServiceClient : Type := { client_id : nat }.
Record UserAuthenticationClient : Type :=
  { auth_service_client : ServiceClient }.
Record InferenceClient : Type :=
  { inference_service_client : ServiceClient }.

(** ** estimator.py: configuration records *)

Record PreprocessorConfig : Type := {
  name : string;
  categorical_name : string;
  append_original : bool;
  subsample_features : option Q;
  global_transformer_name : option string
}.

(** The constructor parameters of [TabPFNClassifier], which are also what
    [get_params()] returns. *)
Module TabPFNClassifierParams.
Record t : Type := {
  model : string;
  n_estimators : Z;
  preprocess_transforms : list PreprocessorConfig;
  feature_shift_decoder : string;
  normalize_with_test : bool;
  average_logits : bool;
  optimize_metric : option string;
  transformer_predict_kwargs : option (list (string * string));
  multiclass_decoder : string;
  softmax_temperature : option Q;
  use_poly_features : bool;
  max_poly_features : Z;
  remove_outliers : Q;
  add_fingerprint_features : bool;
  subsample_samples : Q
}.

(** The call [TabPFNClassifier(model=m, optimize_metric=metric)]: every
    other parameter takes the default of the constructor's signature. *)
Definition make (m : string) (metric : option string) : t := {|
  model := m;
  n_estimators := 4;
  preprocess_transforms :=
    [ {| name := "quantile_uni_coarse";
         categorical_name := "ordinal_very_common_categories_shuffled";
         append_original := true;
         subsample_features := Some (-1)%Q;
         global_transformer_name := Some "svd" |};
      {| name := "none";
         categorical_name := "numeric";
         append_original := false;
         subsample_features := Some (-1)%Q;
         global_transformer_name := None |} ];
  feature_shift_decoder := "shuffle";
  normalize_with_test := false;
  average_logits := false;
  optimize_metric := metric;
  transformer_predict_kwargs := None;
  multiclass_decoder := "shuffle";
  softmax_temperature := Some (-1 # 10)%Q;
  use_poly_features := false;
  max_poly_features := 50;
  remove_outliers := 12%Q;
  add_fingerprint_features := true;
  subsample_samples := (-1)%Q
|}.

(** [TabPFNClassifier()]. *)
Definition defaults : t := make "latest_tabpfn_hosted" (Some "roc").
End TabPFNClassifierParams.

(** The constructor parameters of [TabPFNRegressor]. *)
Module TabPFNRegressorParams.
Record t : Type := {
  model : string;
  n_estimators : Z;
  preprocess_transforms : list PreprocessorConfig;
  feature_shift_decoder : string;
  normalize_with_test : bool;
  average_logits : bool;
  optimize_metric : option string;
  transformer_predict_kwargs : option (list (string * string));
  softmax_temperature : option Q;
  use_poly_features : bool;
  max_poly_features : Z;
  remove_outliers : Q;
  regression_y_preprocess_transforms : option (list (option string));
  add_fingerprint_features : bool;
  cancel_nan_borders : bool;
  super_bar_dist_averaging : bool;
  subsample_samples : Q
}.

(** The call [TabPFNRegressor(model=m, optimize_metric=metric)]. *)
Definition make (m : string) (metric : option string) : t := {|
  model := m;
  n_estimators := 8;
  preprocess_transforms :=
    [ {| name := "quantile_uni";
         categorical_name := "ordinal_very_common_categories_shuffled";
         append_original := true;
         subsample_features := Some (-1)%Q;
         global_transformer_name := Some "svd" |};
      {| name := "safepower";
         categorical_name := "onehot";
         append_original := false;
         subsample_features := Some (-1)%Q;
         global_transformer_name := None |} ];
  feature_shift_decoder := "shuffle";
  normalize_with_test := false;
  average_logits := false;
  optimize_metric := metric;
  transformer_predict_kwargs := None;
  softmax_temperature := Some (-1 # 10)%Q;
  use_poly_features := false;
  max_poly_features := 50;
  remove_outliers := (-1)%Q;
  regression_y_preprocess_transforms := Some [None; Some "safepower"];
  add_fingerprint_features := true;
  cancel_nan_borders := true;
  super_bar_dist_averaging := false;
  subsample_samples := (-1)%Q
|}.

(** [TabPFNRegressor()]. *)
Definition defaults : t := make "latest_tabpfn_hosted" (Some "rmse").
End TabPFNRegressorParams.

(** What is passed as [config=] to the inference client's [predict]. *)
Inductive params_dict : Type :=
| ClassifierConfig (p : TabPFNClassifierParams.t)
| RegressorConfig (p : TabPFNRegressorParams.t).

(** ** Calls that leave the two modules *)

Inductive event : Type :=
| PromptWelcome
| NewServiceClient (c : ServiceClient)
| IsAccessibleConnection (h : UserAuthenticationClient)
| TryReuseExistingToken (h : UserAuthenticationClient)
| PromptReusingExistingToken
| PromptTermsAndCond
| PromptAndSetToken (h : UserAuthenticationClient)
| RetrieveGreetingMessages (h : UserAuthenticationClient)
| PromptRetrievedGreetingMessages (msgs : list string)
| GetUserEmailVerificationStatus (h : UserAuthenticationClient) (email : string)
| ResetCache (h : UserAuthenticationClient)
| Rmtree (path : string)
| InferenceFit (h : InferenceClient) (X y : ndarray)
| InferencePredict (h : InferenceClient) (X : ndarray) (task : string)
    (config : params_dict)
| PrintOut (msg : string).

(** The answer of every collaborator during one call of an operation of
    this code; any of them may raise instead of answering.  [CACHE_DIR] is
    the constant of [tabpfn_client.constants]. *)
Record Env : Type := {
  prompt_welcome : outcome unit;
  service_client_new : outcome unit;
  is_accessible_connection : outcome bool;
  try_reuse_existing_token : outcome bool;
  prompt_reusing_existing_token : outcome unit;
  prompt_terms_and_cond : outcome bool;
  prompt_and_set_token : outcome string;
  retrieve_greeting_messages : outcome (list string);
  prompt_retrieved_greeting_messages : list string -> outcome unit;
  get_user_email_verification_status : string -> outcome bool;
  reset_cache : outcome unit;
  inference_fit : ndarray -> ndarray -> outcome unit;
  inference_predict :
    ndarray -> string -> params_dict -> outcome (gmap string ndarray);
  CACHE_DIR : string
}.

(** ** config.py: the session state *)

Record TabPFNConfig : Type := {
  is_initialized : option bool;
  user_email : option string;
  use_server : option bool;
  user_auth_handler : option UserAuthenticationClient;
  inference_handler : option InferenceClient
}.

(** [TabPFNConfig()]: every attribute is the class attribute, [None]. *)
Definition TabPFNConfig_new : TabPFNConfig := {|
  is_initialized := None;
  user_email := None;
  use_server := None;
  user_auth_handler := None;
  inference_handler := None
|}.

(** The process: the module-level [g_tabpfn_config], the directories that
    exist, the number of service clients built so far and the calls made,
    oldest first. *)
Record World : Type := {
  g_tabpfn_config : TabPFNConfig;
  directories : gset string;
  clients_built : nat;
  calls : list event
}.

(** ** The monad of operations *)

Definition M (A : Type) : Type := World -> outcome A * World.

Definition ret {A} (a : A) : M A := fun w => (Ret a, w).

Definition raise {A} (e : exn) : M A := fun w => (Raise e, w).

Definition bind {A B} (m : M A) (k : A -> M B) : M B :=
  fun w =>
    match m w with
    | (Ret a, w') => k a w'
    | (Raise e, w') => (Raise e, w')
    end.

Declare Scope py_scope.
Delimit Scope py_scope with py.
Notation "x <- m ;; k" := (bind m (fun x => k))
  (at level 100, m at next level, right associativity) : py_scope.
Notation "m ;; k" := (bind m (fun _ => k))
  (at level 100, right associativity) : py_scope.
Local Open Scope py_scope.

(** The current [g_tabpfn_config]. *)
Definition get_config : M TabPFNConfig :=
  fun w => (Ret (g_tabpfn_config w), w).

Definition put_config (c : TabPFNConfig) : M unit :=
  fun w =>
    (Ret tt,
     {| g_tabpfn_config := c; directories := directories w;
        clients_built := clients_built w; calls := calls w |}).

(** A call on a collaborator: logged, then answered as [Env] says. *)
Definition call {A} (ev : event) (answer : outcome A) : M A :=
  fun w =>
    (answer,
     {| g_tabpfn_config := g_tabpfn_config w; directories := directories w;
        clients_built := clients_built w; calls := calls w ++ [ev] |}).

(** Attribute assignments on [g_tabpfn_config]. *)
Definition set_is_initialized (v : option bool) : M unit :=
  c <- get_config ;;
  put_config {| is_initialized := v; user_email := user_email c;
                use_server := use_server c;
                user_auth_handler := user_auth_handler c;
                inference_handler := inference_handler c |}.

Definition set_user_email (v : option string) : M unit :=
  c <- get_config ;;
  put_config {| is_initialized := is_initialized c; user_email := v;
                use_server := use_server c;
                user_auth_handler := user_auth_handler c;
                inference_handler := inference_handler c |}.

Definition set_use_server (v : option bool) : M unit :=
  c <- get_config ;;
  put_config {| is_initialized := is_initialized c;
                user_email := user_email c; use_server := v;
                user_auth_handler := user_auth_handler c;
                inference_handler := inference_handler c |}.

Definition set_user_auth_handler (v : option UserAuthenticationClient)
  : M unit :=
  c <- get_config ;;
  put_config {| is_initialized := is_initialized c;
                user_email := user_email c; use_server := use_server c;
                user_auth_handler := v;
                inference_handler := inference_handler c |}.

Definition set_inference_handler (v : option InferenceClient) : M unit :=
  c <- get_config ;;
  put_config {| is_initialized := is_initialized c;
                user_email := user_email c; use_server := use_server c;
                user_auth_handler := user_auth_handler c;
                inference_handler := v |}.

(** [ServiceClient()]: a new connection object, unless building it raises. *)
Definition ServiceClient_new (env : Env) : M ServiceClient :=
  fun w =>
    let c := {| client_id := clients_built w |} in
    (match service_client_new env with
     | Ret _ => Ret c
     | Raise e => Raise e
     end,
     {| g_tabpfn_config := g_tabpfn_config w; directories := directories w;
        clients_built := S (clients_built w);
        calls := calls w ++ [NewServiceClient c] |}).

(** [shutil.rmtree(path, ignore_errors=True)]: the directory is gone
    afterwards and no error is reported, whether or not it was there. *)
Definition rmtree_ignore_errors (path : string) : M unit :=
  fun w =>
    (Ret tt,
     {| g_tabpfn_config := g_tabpfn_config w;
        directories := directories w ∖ {[ path ]};
        clients_built := clients_built w;
        calls := calls w ++ [Rmtree path] |}).

(** ** config.py: [init] and [reset]

    [UserAuthenticationClient(service_client)] and
    [InferenceClient(service_client)] wrap the client they are given: they
    are record constructions here.  Every other call on a collaborator goes
    through [call] and may raise. *)

Definition init (env : Env) (use_server : bool) : M unit :=
  (if use_server then
     call PromptWelcome (prompt_welcome env) ;;
     service_client <- ServiceClient_new env ;;
     let user_auth_handler :=
       {| auth_service_client := service_client |} in
     accessible <- call (IsAccessibleConnection user_auth_handler)
                        (is_accessible_connection env) ;;
     (if negb accessible then
        raise (RuntimeError
          "TabPFN is inaccessible at the moment, please try again later.")
      else ret tt) ;;
     is_valid_token_set <- call (TryReuseExistingToken user_auth_handler)
                                (try_reuse_existing_token env) ;;
     (if is_valid_token_set then
        call PromptReusingExistingToken (prompt_reusing_existing_token env)
      else
        agreed <- call PromptTermsAndCond (prompt_terms_and_cond env) ;;
        (if negb agreed then
           raise (RuntimeError
             "You must agree to the terms and conditions to use TabPFN")
         else ret tt) ;;
        email <- call (PromptAndSetToken user_auth_handler)
                      (prompt_and_set_token env) ;;
        set_user_email (Some email)) ;;
     msgs <- call (RetrieveGreetingMessages user_auth_handler)
                  (retrieve_greeting_messages env) ;;
     call (PromptRetrievedGreetingMessages msgs)
          (prompt_retrieved_greeting_messages env msgs) ;;
     set_use_server (Some true) ;;
     set_user_auth_handler (Some user_auth_handler) ;;
     set_inference_handler
       (Some {| inference_service_client := service_client |})
   else
     set_use_server (Some false)) ;;
  set_is_initialized (Some true).

Definition reset (env : Env) : M unit :=
  put_config TabPFNConfig_new ;;
  c <- get_config ;;
  (if truthy (use_server c) then
     match user_auth_handler c with
     | Some h => call (ResetCache h) (reset_cache env)
     | None =>
         raise (AttributeError
           "'NoneType' object has no attribute 'reset_cache'")
     end
   else ret tt) ;;
  rmtree_ignore_errors (CACHE_DIR env).

(** ** numpy and sklearn, as far as [estimator.py] uses them *)

(** Scan of a row: [best] is the largest entry seen so far and [best_i] the
    first place it was seen at; [i] is the index of the head of [l]. *)
Fixpoint argmax_from (best : Q) (best_i i : nat) (l : list Q) : nat :=
  match l with
  | [] => best_i
  | x :: t =>
      if Qle_bool x best then argmax_from best best_i (S i) t
      else argmax_from x i (S i) t
  end.

(** [np.argmax] of a one-dimensional array: the first index of a largest
    entry; an empty array is an error. *)
Definition argmax (l : list Q) : outcome nat :=
  match l with
  | [] => Raise (ValueError "attempt to get argmax of an empty sequence")
  | x :: t => Ret (argmax_from x 0 1 t)
  end.

Fixpoint argmax_rows (m : list (list Q)) : outcome (list nat) :=
  match m with
  | [] => Ret []
  | r :: m' =>
      match argmax r with
      | Raise e => Raise e
      | Ret i =>
          match argmax_rows m' with
          | Raise e => Raise e
          | Ret l => Ret (i :: l)
          end
      end
  end.

(** [np.argmax(a, axis=1)]. *)
Definition argmax_axis1 (a : ndarray) : outcome (list nat) :=
  match a with
  | Arr1 _ => Raise AxisError
  | Arr2 m => argmax_rows m
  end.

(** Lift a value computed without touching the world. *)
Definition lift {A} (o : outcome A) : M A := fun w => (o, w).

(** [x in (...)] on a tuple of strings and [None]. *)
Definition py_in (x : option string) (t : list (option string)) : bool :=
  bool_decide (x ∈ t).

(** [str(x)] for a string or [None]. *)
Definition py_str (x : option string) : string :=
  match x with
  | Some s => s
  | None => "None"
  end.

(** ** estimator.py: [TabPFNClassifier] *)

Module TabPFNClassifier.
Import TabPFNClassifierParams.

(** An instance: its parameters and whether the attribute [fitted_]
    exists, which is what [check_is_fitted] looks for. *)
Record t : Type := {
  params : TabPFNClassifierParams.t;
  fitted_ : bool
}.

Definition get_params (self : t) : params_dict :=
  ClassifierConfig (params self).

Definition check_is_fitted (self : t) : M unit :=
  if fitted_ self then ret tt else raise NotFittedError.

Definition __init__ (env : Env) (p : TabPFNClassifierParams.t) : M t :=
  c <- get_config ;;
  (if truthy_str (user_email c) then
     match user_auth_handler c with
     | None =>
         raise (AttributeError
           "'NoneType' object has no attribute 'get_user_email_verification_status'")
     | Some h =>
         let email := default "" (user_email c) in
         verified <- call (GetUserEmailVerificationStatus h email)
                          (get_user_email_verification_status env email) ;;
         if negb verified then
           raise (RuntimeError
             "Dear User, your email has not been verified. Please, check your mailbox, verify your email and try again!")
         else ret tt
     end
   else ret tt) ;;
  ret {| params := p; fitted_ := false |}.

(** [fit] returns [self]: the value returned is the instance as [fit]
    left it.  When [fit] raises, the instance is as it was. *)
Definition fit (env : Env) (self : t) (X y : ndarray) : M t :=
  c <- get_config ;;
  (if negb (truthy (is_initialized c)) then
     raise (RuntimeError
       "tabpfn_client.init() must be called before using TabPFNClassifier")
   else ret tt) ;;
  c <- get_config ;;
  if truthy (use_server c) then
    (if String.eqb (model (params self)) "latest_tabpfn_hosted" then ret tt
     else
       call (PrintOut
         "Only 'latest_tabpfn_hosted' model is supported at the moment for init(use_server=True)")
         (Ret tt)) ;;
    c <- get_config ;;
    match inference_handler c with
    | None =>
        raise (AttributeError "'NoneType' object has no attribute 'fit'")
    | Some h =>
        call (InferenceFit h X y) (inference_fit env X y) ;;
        ret {| params := params self; fitted_ := true |}
    end
  else
    raise (NotImplementedError
      "Only server mode is supported at the moment for init(use_server=False)").

Definition predict_proba (env : Env) (self : t) (X : ndarray)
  : M ndarray :=
  check_is_fitted self ;;
  c <- get_config ;;
  match inference_handler c with
  | None =>
      raise (AttributeError "'NoneType' object has no attribute 'predict'")
  | Some h =>
      response <- call (InferencePredict h X "classification"
                          (get_params self))
                       (inference_predict env X "classification"
                          (get_params self)) ;;
      match response !! "probas" with
      | Some probas => ret probas
      | None => raise (KeyError "probas")
      end
  end.

Definition predict (env : Env) (self : t) (X : ndarray) : M (list nat) :=
  probas <- predict_proba env self X ;;
  lift (argmax_axis1 probas).
End TabPFNClassifier.

(** ** estimator.py: [TabPFNRegressor] *)

Module TabPFNRegressor.
Import TabPFNRegressorParams.

Record t : Type := {
  params : TabPFNRegressorParams.t;
  fitted_ : bool
}.

Definition get_params (self : t) : params_dict :=
  RegressorConfig (params self).

Definition check_is_fitted (self : t) : M unit :=
  if fitted_ self then ret tt else raise NotFittedError.

Definition __init__ (env : Env) (p : TabPFNRegressorParams.t) : M t :=
  c <- get_config ;;
  (if truthy_str (user_email c) then
     match user_auth_handler c with
     | None =>
         raise (AttributeError
           "'NoneType' object has no attribute 'get_user_email_verification_status'")
     | Some h =>
         let email := default "" (user_email c) in
         verified <- call (GetUserEmailVerificationStatus h email)
                          (get_user_email_verification_status env email) ;;
         if negb verified then
           raise (RuntimeError
             "Dear User, your email has not been verified. Please, check your mailbox, verify your email and try again!")
         else ret tt
     end
   else ret tt) ;;
  ret {| params := p; fitted_ := false |}.

Definition fit (env : Env) (self : t) (X y : ndarray) : M t :=
  c <- get_config ;;
  (if negb (truthy (is_initialized c)) then
     raise (RuntimeError
       "tabpfn_client.init() must be called before using TabPFNRegressor")
   else ret tt) ;;
  c <- get_config ;;
  if truthy (use_server c) then
    (if String.eqb (model (params self)) "latest_tabpfn_hosted" then ret tt
     else
       call (PrintOut
         "Only 'latest_tabpfn_hosted' model is supported at the moment for init(use_server=True)")
         (Ret tt)) ;;
    c <- get_config ;;
    match inference_handler c with
    | None =>
        raise (AttributeError "'NoneType' object has no attribute 'fit'")
    | Some h =>
        call (InferenceFit h X y) (inference_fit env X y) ;;
        ret {| params := params self; fitted_ := true |}
    end
  else
    raise (NotImplementedError
      "Only server mode is supported at the moment for init(use_server=False)").

Definition predict_full (env : Env) (self : t) (X : ndarray)
  : M (gmap string ndarray) :=
  check_is_fitted self ;;
  c <- get_config ;;
  match inference_handler c with
  | None =>
      raise (AttributeError "'NoneType' object has no attribute 'predict'")
  | Some h =>
      call (InferencePredict h X "regression" (get_params self))
           (inference_predict env X "regression" (get_params self))
  end.

(** [d[key]] on a dict. *)
Definition getitem (d : gmap string ndarray) (key : string)
  : M ndarray :=
  match d !! key with
  | Some v => ret v
  | None => raise (KeyError key)
  end.

Definition predict (env : Env) (self : t) (X : ndarray) : M ndarray :=
  full_prediction_dict <- predict_full env self X ;;
  if py_in (optimize_metric (params self))
           [Some "mse"; Some "rmse"; Some "r2"; Some "mean"; None] then
    getitem full_prediction_dict "mean"
  else if py_in (optimize_metric (params self))
                [Some "mae"; Some "median"] then
    getitem full_prediction_dict "median"
  else if py_in (optimize_metric (params self))
                [Some "mode"; Some "exact_match"] then
    getitem full_prediction_dict "mode"
  else
    raise (ValueError
      ("Optimize metric " ++ py_str (optimize_metric (params self))
       ++ " not supported")).
End TabPFNRegressor.

(** ** Concrete collaborators and worlds, for the examples *)

(** A reachable server and a user who accepts the terms and logs in as
    [user@example.org]: [cached] says whether a cached token is found,
    [verified] whether the address is reported verified, and [response] is
    what the service answers to [predict]. *)
Definition env_answering (cached verified : bool)
    (response : gmap string ndarray) : Env := {|
  prompt_welcome := Ret tt;
  service_client_new := Ret tt;
  is_accessible_connection := Ret true;
  try_reuse_existing_token := Ret cached;
  prompt_reusing_existing_token := Ret tt;
  prompt_terms_and_cond := Ret true;
  prompt_and_set_token := Ret "user@example.org";
  retrieve_greeting_messages := Ret [];
  prompt_retrieved_greeting_messages := fun _ => Ret tt;
  get_user_email_verification_status := fun _ => Ret verified;
  reset_cache := Ret tt;
  inference_fit := fun _ _ => Ret tt;
  inference_predict := fun _ _ _ => Ret response;
  CACHE_DIR := "~/.tabpfn"
|}.

Definition env_cached : Env := env_answering true true ∅.
Definition env_login : Env := env_answering false true ∅.

(** The process right after the modules are imported. *)
Definition world0 : World := {|
  g_tabpfn_config := TabPFNConfig_new;
  directories := ∅;
  clients_built := 0;
  calls := []
|}.

(** The process after a successful [init(use_server=True)] that logged
    in interactively. *)
Definition world_server : World := (init env_login true world0).2.

(** The regression answer used in the examples. *)
Definition full_prediction : gmap string ndarray :=
  <["mean" := Arr1 [1 # 2; 3 # 2]]>
    (<["median" := Arr1 [2 # 5; 8 # 5]]>
       (<["mode" := Arr1 [3 # 10; 17 # 10]]> ∅)).

(** The classification answer used in the examples. *)
Definition probas_response : gmap string ndarray :=
  <["probas" := Arr2 [[1 # 10; 9 # 10]; [7 # 10; 3 # 10]]]> ∅.

(** Estimators of the examples: a fitted and a fresh classifier, a fresh
    classifier for another model, and a fitted regressor for a metric. *)
Definition classifier_fitted : TabPFNClassifier.t :=
  {| TabPFNClassifier.params := TabPFNClassifierParams.defaults;
     TabPFNClassifier.fitted_ := true |}.

Definition classifier_fresh : TabPFNClassifier.t :=
  {| TabPFNClassifier.params := TabPFNClassifierParams.defaults;
     TabPFNClassifier.fitted_ := false |}.

Definition classifier_other_model : TabPFNClassifier.t :=
  {| TabPFNClassifier.params :=
       TabPFNClassifierParams.make "my_local_model" (Some "roc");
     TabPFNClassifier.fitted_ := false |}.

Definition regressor_fitted (metric : option string) : TabPFNRegressor.t :=
  {| TabPFNRegressor.params :=
       TabPFNRegressorParams.make "latest_tabpfn_hosted" metric;
     TabPFNRegressor.fitted_ := true |}.

(** The features and targets passed in the examples. *)
Definition X_example : ndarray :=
  Arr2 [[1 # 1; 2 # 1]; [3 # 1; 4 # 1]]%Q.
Definition y_example : ndarray := Arr1 [0 # 1; 1 # 1]%Q.

(** ** Sessions and what the statements speak about *)

(** The worlds a process can be in: the module was imported, and [init]
    (with either flag, returning or raising) and [reset] were called any
    number of times, the collaborators answering as they like. *)
Inductive reachable : World -> Prop :=
| reachable_import (w : World) :
    g_tabpfn_config w = TabPFNConfig_new -> reachable w
| reachable_init (env : Env) (use_server : bool) (w : World) :
    reachable w -> reachable (init env use_server w).2
| reachable_reset (env : Env) (w : World) :
    reachable w -> reachable (reset env w).2.

(** Both collaborator handles are set. *)
Definition handles_set (c : TabPFNConfig) : Prop :=
  is_Some (user_auth_handler c) ∧ is_Some (inference_handler c).

(** Calls of the auth handle's [reset_cache] in a log. *)
Definition is_reset_cache (ev : event) : bool :=
  match ev with
  | ResetCache _ => true
  | _ => false
  end.

Definition cache_invalidations (log : list event) : nat :=
  length (filter (λ ev, is_reset_cache ev = true) log).

(** [k] is the index of the first largest entry of [row]. *)
Definition is_argmax (row : list Q) (k : nat) : Prop :=
  ∃ x, row !! k = Some x
       ∧ (∀ j y, row !! j = Some y → (y <= x)%Q)
       ∧ (∀ j y, (j < k)%nat → row !! j = Some y → (y < x)%Q).

(** The error of [fit] when [init] was not called, for the class named
    [cls]. *)
Definition not_initialized_error (cls : string) : exn :=
  RuntimeError ("tabpfn_client.init() must be called before using " ++ cls).

Definition unverified_email_error : exn :=
  RuntimeError
    "Dear User, your email has not been verified. Please, check your mailbox, verify your email and try again!".

Definition sentinel_warning : string :=
  "Only 'latest_tabpfn_hosted' model is supported at the moment for init(use_server=True)".

(** The values of [optimize_metric] that [TabPFNRegressor.predict] knows. *)
Definition supported_metrics : list (option string) :=
  [Some "mse"; Some "rmse"; Some "r2"; Some "mean"; None;
   Some "mae"; Some "median"; Some "mode"; Some "exact_match"].

(** ** estimator.py: the methods of [PreprocessorConfig] *)

(** [a > b] on numbers. *)
Definition py_gt (a b : Q) : bool := negb (Qle_bool a b).

(** [can_be_cached()].  The comparison [None > 0] raises [TypeError], the
    only way these methods fail: [None] stands for that exception. *)
Definition can_be_cached (self : PreprocessorConfig) : option bool :=
  match subsample_features self with
  | None => None
  | Some q => Some (negb (py_gt q 0))
  end.

(** [__str__()].  [float_str] is Python's [str] on numbers. *)
Definition __str__ (float_str : Q -> string) (self : PreprocessorConfig)
  : option string :=
  match subsample_features self with
  | None => None
  | Some q =>
      Some ((name self ++ "_cat:" ++ categorical_name self)
            ++ (if append_original self then "_and_none" else "")
            ++ (if py_gt q 0 then "_subsample_feats_" ++ float_str q
                else "")
            ++ (match global_transformer_name self with
                | Some g => "_global_transformer_" ++ g
                | None => ""
                end))
  end.

(** The values [to_dict()] stores: strings, booleans and numbers. *)
Inductive pyval : Type :=
| PyStr (s : string)
| PyBool (b : bool)
| PyNum (q : Q).

(** [to_dict()]: the fields by name; a value that is not a [str], [int],
    [float], [list] or [dict], which here can only be [None], is replaced by
    its [str]. *)
Definition to_dict (self : PreprocessorConfig) : gmap string pyval :=
  <["name" := PyStr (name self)]>
    (<["categorical_name" := PyStr (categorical_name self)]>
       (<["append_original" := PyBool (append_original self)]>
          (<["subsample_features" :=
               match subsample_features self with
               | Some q => PyNum q
               | None => PyStr "None"
               end]>
             (<["global_transformer_name" :=
                  match global_transformer_name self with
                  | Some g => PyStr g
                  | None => PyStr "None"
                  end]> ∅)))).

(** ** What an operation leaves alone *)

(** [m] assigns nothing to the session, removes no directory and builds no
    service client. *)
Definition session_frame {A} (m : M A) : Prop :=
  ∀ w, g_tabpfn_config (m w).2 = g_tabpfn_config w
       ∧ directories (m w).2 = directories w
       ∧ clients_built (m w).2 = clients_built w.

(** Calls on the inference client in a log. *)
Definition is_inference_call (ev : event) : bool :=
  match ev with
  | InferenceFit _ _ _ | InferencePredict _ _ _ _ => true
  | _ => false
  end.

(** What [predict_proba] makes of the answer of the service. *)
Definition probas_of (answer : outcome (gmap string ndarray))
  : outcome ndarray :=
  match answer with
  | Ret response =>
      match response !! "probas" with
      | Some probas => Ret probas
      | None => Raise (KeyError "probas")
      end
  | Raise e => Raise e
  end.

(** A preprocessor of the examples. *)
Definition preprocessor_example (subsample : option Q)
    (transformer : option string) : PreprocessorConfig :=
  {| name := "quantile_uni_coarse";
     categorical_name := "ordinal_very_common_categories_shuffled";
     append_original := true;
     subsample_features := subsample;
     global_transformer_name := transformer |}.

(** ** More collaborators for the examples *)

(** Collaborators that answer as in [env_answering false true ∅] except
    for the connection check, the terms prompt and the retrieval of the
    greeting messages. *)
Definition env_failing (accessible agreed : bool)
    (greetings : outcome (list string)) : Env := {|
  prompt_welcome := Ret tt;
  service_client_new := Ret tt;
  is_accessible_connection := Ret accessible;
  try_reuse_existing_token := Ret false;
  prompt_reusing_existing_token := Ret tt;
  prompt_terms_and_cond := Ret agreed;
  prompt_and_set_token := Ret "user@example.org";
  retrieve_greeting_messages := greetings;
  prompt_retrieved_greeting_messages := fun _ => Ret tt;
  get_user_email_verification_status := fun _ => Ret true;
  reset_cache := Ret tt;
  inference_fit := fun _ _ => Ret tt;
  inference_predict := fun _ _ _ => Ret ∅;
  CACHE_DIR := "~/.tabpfn"
|}.

Definition env_inaccessible : Env := env_failing false true (Ret []).
Definition env_refusing : Env := env_failing true false (Ret []).
Definition env_greeting_fails : Env :=
  env_failing true true (Raise (CollaboratorError 503)).

(** Both handles, when set, wrap one service client. *)
Definition handles_share_client (c : TabPFNConfig) : Prop :=
  ∀ a i, user_auth_handler c = Some a → inference_handler c = Some i →
         auth_service_client a = inference_service_client i.

(** ** Symbolic execution *)

(** Unfold the operations of [config.py] down to the world. *)
Ltac run_py :=
  cbv beta iota zeta delta
    [init reset set_is_initialized set_user_email set_use_server
     set_user_auth_handler set_inference_handler ServiceClient_new
     rmtree_ignore_errors get_config put_config call lift raise ret bind];
  simpl.

(** One case analysis on what a collaborator answered. *)
Ltac step_py :=
  match goal with
  | |- context [match ?x with Ret _ => _ | Raise _ => _ end] =>
      is_var x; destruct x
  | |- context [match ?f ?a with Ret _ => _ | Raise _ => _ end] =>
      is_var f; is_var a; destruct (f a)
  | |- context [if negb ?b then _ else _] => is_var b; destruct b
  | |- context [if ?b then _ else _] => is_var b; destruct b
  end;
  simpl.

(** Unfold the operations of [estimator.py] down to the world. *)
Ltac run_estimator :=
  cbv beta iota zeta delta
    [TabPFNClassifier.__init__ TabPFNClassifier.fit
     TabPFNClassifier.predict TabPFNClassifier.predict_proba
     TabPFNClassifier.check_is_fitted
     TabPFNRegressor.__init__ TabPFNRegressor.fit
     TabPFNRegressor.predict TabPFNRegressor.predict_full
     TabPFNRegressor.check_is_fitted TabPFNRegressor.getitem
     get_config put_config call lift raise ret bind];
  simpl.

(** What holds of the configuration in every reachable world. *)
Definition session_invariant (c : TabPFNConfig) : Prop :=
  (use_server c = Some true → is_initialized c = Some true ∧ handles_set c)
  ∧ (is_Some (user_auth_handler c) ∨ is_Some (inference_handler c) →
     is_initialized c = Some true ∧ handles_set c)
  ∧ (is_initialized c = None ∨ is_initialized c = Some true).

(** * Properties *)

Local Open Scope list_scope.

(** ** Running [init] *)

(** [init(use_server=False)] is two assignments. *)
Lemma init_local_run (env : Env) (w : World) :
  init env false w =
  (Ret tt,
   {| g_tabpfn_config :=
        {| is_initialized := Some true;
           user_email := user_email (g_tabpfn_config w);
           use_server := Some false;
           user_auth_handler := user_auth_handler (g_tabpfn_config w);
           inference_handler := inference_handler (g_tabpfn_config w) |};
      directories := directories w;
      clients_built := clients_built w;
      calls := calls w |}).
Proof. reflexivity. Qed.

(** A server-mode [init] that raises has assigned nothing but, perhaps,
    [user_email]. *)
Lemma init_server_raise_frame (env : Env) (w : World) (e : exn) :
  (init env true w).1 = Raise e ->
  let c := g_tabpfn_config w in
  let c' := g_tabpfn_config (init env true w).2 in
  is_initialized c' = is_initialized c
  ∧ use_server c' = use_server c
  ∧ user_auth_handler c' = user_auth_handler c
  ∧ inference_handler c' = inference_handler c.
Proof.
  run_py. destruct env; simpl.
  repeat (step_py; try done).
Qed.

(** A server-mode [init] that returns has assigned every attribute but,
    on the cached-token path, [user_email]. *)
Lemma init_server_ret (env : Env) (w : World) :
  (init env true w).1 = Ret tt ->
  let sc := {| client_id := clients_built w |} in
  ∃ cached,
    try_reuse_existing_token env = Ret cached
    ∧ g_tabpfn_config (init env true w).2 =
      {| is_initialized := Some true;
         user_email :=
           (if cached then user_email (g_tabpfn_config w)
            else match prompt_and_set_token env with
                 | Ret email => Some email
                 | Raise _ => None
                 end);
         use_server := Some true;
         user_auth_handler := Some {| auth_service_client := sc |};
         inference_handler := Some {| inference_service_client := sc |} |}.
Proof.
  run_py. destruct env; simpl.
  repeat (step_py; try done); intros _;
    (by exists true) || (by exists false).
Qed.

(** What [reset] does, whatever the world it is called in. *)
Lemma reset_run (env : Env) (w : World) :
  reset env w =
  (Ret tt,
   {| g_tabpfn_config := TabPFNConfig_new;
      directories := directories w ∖ {[ CACHE_DIR env ]};
      clients_built := clients_built w;
      calls := calls w ++ [Rmtree (CACHE_DIR env)] |}).
Proof. reflexivity. Qed.

Lemma cache_invalidations_app (l1 l2 : list event) :
  cache_invalidations (l1 ++ l2)
  = (cache_invalidations l1 + cache_invalidations l2)%nat.
Proof. unfold cache_invalidations. by rewrite filter_app, length_app. Qed.

(** ** The session invariant *)

Lemma session_invariant_new : session_invariant TabPFNConfig_new.
Proof.
  unfold session_invariant, handles_set; simpl.
  split_and!; [done | | by left].
  intros [H | H]; by destruct H.
Qed.

Lemma session_invariant_init (env : Env) (use_server : bool) (w : World) :
  session_invariant (g_tabpfn_config w) ->
  session_invariant (g_tabpfn_config (init env use_server w).2).
Proof.
  intros (Hs & Hh & Hi). destruct use_server.
  - destruct (init env true w).1 as [[] | e] eqn:Hrun.
    + destruct (init_server_ret env w Hrun) as (cached & _ & ->).
      unfold session_invariant, handles_set; simpl.
      split_and!; eauto.
    + destruct (init_server_raise_frame env w e Hrun) as (E1 & E2 & E3 & E4).
      unfold session_invariant, handles_set in *.
      rewrite E1, E2, E3, E4. auto.
  - rewrite init_local_run.
    unfold session_invariant, handles_set in *; simpl.
    split_and!; [done | | by right].
    intros H. destruct (Hh H) as [_ ?]. done.
Qed.

Lemma reachable_session_invariant (w : World) :
  reachable w -> session_invariant (g_tabpfn_config w).
Proof.
  induction 1 as [w Hnew | env b w _ IH | env w _ _].
  - rewrite Hnew. apply session_invariant_new.
  - by apply session_invariant_init.
  - rewrite reset_run. apply session_invariant_new.
Qed.

(** ** Claims about [config.py] *)

(** C1.  Evaluation of [reset]: in every world, also one left by a
    server-mode [init], [reset] returns normally, the configuration is a
    fresh one and the cache directory does not exist afterwards, present or
    not before; but the log gains the [rmtree] call alone, so the number of
    [reset_cache] calls made is zero, not one: the configuration is replaced
    before its [use_server] attribute is read. *)
Theorem reset_skips_cache_invalidation (env : Env) (w : World) :
  (reset env w).1 = Ret tt
  ∧ g_tabpfn_config (reset env w).2 = TabPFNConfig_new
  ∧ (CACHE_DIR env ∉ directories (reset env w).2)
  ∧ calls (reset env w).2 = (calls w ++ [Rmtree (CACHE_DIR env)])%list
  ∧ cache_invalidations (calls (reset env w).2)
    = cache_invalidations (calls w).
Proof.
  rewrite reset_run; simpl. split_and!; try done.
  - rewrite not_elem_of_difference, elem_of_singleton. by right.
  - rewrite cache_invalidations_app.
    change (cache_invalidations [Rmtree (CACHE_DIR env)]) with 0%nat.
    apply Nat.add_0_r.
Qed.

(** The same at the world left by a server-mode [init]. *)
Example reset_after_server_init :
  use_server (g_tabpfn_config world_server) = Some true
  ∧ is_initialized (g_tabpfn_config world_server) = Some true
  ∧ cache_invalidations (calls (reset env_login world_server).2) = 0%nat.
Proof. by vm_compute. Qed.

(** C2, as stated, fails: after a server-mode [init] followed by
    [init(use_server=False)] both handles are still set although
    [use_server] is false. *)
Lemma handles_iff_server_counterexample :
  let w := (init env_login false world_server).2 in
  reachable w
  ∧ ¬ (handles_set (g_tabpfn_config w)
       ↔ use_server (g_tabpfn_config w) = Some true
         ∧ is_initialized (g_tabpfn_config w) = Some true).
Proof.
  split.
  - apply reachable_init. apply reachable_init. by apply reachable_import.
  - intros [Hto _].
    assert (Hset : handles_set
                     (g_tabpfn_config (init env_login false world_server).2)).
    { split; vm_compute; eauto. }
    destruct (Hto Hset) as [Habs _]. vm_compute in Habs. discriminate.
Qed.

(** C2, amended.  In every world reachable by calls of [init] and [reset]:
    if [use_server] is true then [is_initialized] is true and both handles
    are set; and if either handle is set then both are and [is_initialized]
    is true. *)
Theorem reachable_handles (w : World) (Hreach : reachable w) :
  let c := g_tabpfn_config w in
  (use_server c = Some true → is_initialized c = Some true ∧ handles_set c)
  ∧ (is_Some (user_auth_handler c) ∨ is_Some (inference_handler c) →
     is_initialized c = Some true ∧ handles_set c).
Proof.
  destruct (reachable_session_invariant w Hreach) as (Hs & Hh & _).
  by split.
Qed.

Lemma reachable_world_server : reachable world_server.
Proof. apply reachable_init. by apply reachable_import. Defined.

Lemma reachable_handles_witness :
  reachable world_server
  ∧ (use_server (g_tabpfn_config world_server) = Some true →
     is_initialized (g_tabpfn_config world_server) = Some true
     ∧ handles_set (g_tabpfn_config world_server)).
Proof.
  split.
  - exact reachable_world_server.
  - exact (proj1 (reachable_handles world_server reachable_world_server)).
Defined.

(** C4, as stated, fails: called in the world a server-mode [init] left,
    [init(use_server=False)] leaves both handles set. *)
Lemma init_local_handles_counterexample :
  let c := g_tabpfn_config (init env_login false world_server).2 in
  ¬ (user_auth_handler c = None ∧ inference_handler c = None).
Proof. intros c [Habs _]. vm_compute in Habs. discriminate. Qed.

(** C4, amended.  In every world [init(use_server=False)] returns without
    calling any collaborator (the log is unchanged, and so are the
    directories), sets [use_server] to false and [is_initialized] to true,
    and leaves [user_auth_handler], [inference_handler] and [user_email] as
    they were: the handles are null afterwards when they were null
    before. *)
Theorem init_local_frame (env : Env) (w : World) :
  let c := g_tabpfn_config w in
  let w' := (init env false w).2 in
  let c' := g_tabpfn_config w' in
  (init env false w).1 = Ret tt
  ∧ calls w' = calls w
  ∧ directories w' = directories w
  ∧ use_server c' = Some false
  ∧ is_initialized c' = Some true
  ∧ user_auth_handler c' = user_auth_handler c
  ∧ inference_handler c' = inference_handler c
  ∧ user_email c' = user_email c.
Proof. rewrite init_local_run. simpl. by split_and!. Qed.

(** C5, as stated, fails: a server-mode [init] that reuses the cached
    token returns with [user_email] still [None]. *)
Lemma init_cached_email_counterexample :
  (init env_cached true world0).1 = Ret tt
  ∧ user_email (g_tabpfn_config (init env_cached true world0).2) = None.
Proof. by vm_compute. Qed.

(** C5, amended.  Every server-mode [init] that returns sets [use_server]
    and [is_initialized] to true and both handles, built over one new
    service client; it sets [user_email] to the address the login-or-register
    prompt returned when no cached token was reused, and leaves [user_email]
    as it was when the cached token was reused. *)
Theorem init_server_populates (env : Env) (w : World)
    (Hret : (init env true w).1 = Ret tt) :
  let c := g_tabpfn_config w in
  let c' := g_tabpfn_config (init env true w).2 in
  let sc := {| client_id := clients_built w |} in
  use_server c' = Some true
  ∧ is_initialized c' = Some true
  ∧ user_auth_handler c' = Some {| auth_service_client := sc |}
  ∧ inference_handler c' = Some {| inference_service_client := sc |}
  ∧ (try_reuse_existing_token env = Ret true → user_email c' = user_email c)
  ∧ (try_reuse_existing_token env = Ret false →
     ∃ email, prompt_and_set_token env = Ret email
              ∧ user_email c' = Some email).
Proof.
  revert Hret. run_py. destruct env; simpl.
  repeat (step_py; try done); intros _; split_and!; try done; eauto.
Qed.

Lemma init_server_populates_witness :
  (init env_login true world0).1 = Ret tt
  ∧ use_server (g_tabpfn_config (init env_login true world0).2) = Some true.
Proof.
  split.
  - reflexivity.
  - exact (proj1 (init_server_populates env_login world0 eq_refl)).
Defined.

(** ** [np.argmax] *)

(** The scan keeps its invariant: if [best] sits at [best_i] in the part
    already read, bounds it and is strictly above everything before
    [best_i], the index returned is the argmax of the whole row. *)
Lemma argmax_from_spec (l pre : list Q) (best : Q) (best_i : nat) :
  pre !! best_i = Some best ->
  (∀ j y, pre !! j = Some y → (y <= best)%Q) ->
  (∀ j y, (j < best_i)%nat → pre !! j = Some y → (y < best)%Q) ->
  is_argmax (pre ++ l) (argmax_from best best_i (length pre) l).
Proof.
  revert pre best best_i.
  induction l as [| x t IH]; intros pre best best_i Hat Hmax Hfirst; simpl.
  - rewrite app_nil_r. by exists best.
  - replace (pre ++ x :: t) with ((pre ++ [x]) ++ t)
      by (by rewrite <- app_assoc).
    replace (S (length pre)) with (length (pre ++ [x]))
      by (rewrite length_app; simpl; lia).
    destruct (Qle_bool x best) eqn:Hcmp.
    + apply Qle_bool_iff in Hcmp.
      apply IH.
      * by apply lookup_app_l_Some.
      * intros j y Hj. apply lookup_app_Some in Hj as [Hj | [_ Hj]].
        -- by eapply Hmax.
        -- apply list_lookup_singleton_Some in Hj as [_ <-]. done.
      * intros j y Hlt Hj. apply lookup_app_Some in Hj as [Hj | [Hge _]].
        -- by eapply Hfirst.
        -- apply lookup_lt_Some in Hat. lia.
    + assert (Hlt : (best < x)%Q).
      { apply Qnot_le_lt. intros Hle. apply Qle_bool_iff in Hle. congruence. }
      apply IH.
      * rewrite lookup_app_r by lia. by rewrite Nat.sub_diag.
      * intros j y Hj. apply lookup_app_Some in Hj as [Hj | [_ Hj]].
        -- apply Qlt_le_weak. eapply Qle_lt_trans; [by eapply Hmax | done].
        -- apply list_lookup_singleton_Some in Hj as [_ <-]. apply Qle_refl.
      * intros j y Hbefore Hj.
        apply lookup_app_Some in Hj as [Hj | [Hge _]].
        -- eapply Qle_lt_trans; [by eapply Hmax | done].
        -- lia.
Qed.

Lemma argmax_is_argmax (row : list Q) (k : nat) :
  argmax row = Ret k -> is_argmax row k.
Proof.
  destruct row as [| x t]; simpl; [done |].
  intros [= <-].
  apply (argmax_from_spec t [x] x 0).
  - done.
  - intros j y Hj. apply list_lookup_singleton_Some in Hj as [_ <-].
    apply Qle_refl.
  - intros j y Hlt. lia.
Qed.

Lemma argmax_rows_spec (m : list (list Q)) :
  Forall (λ row, row ≠ []) m ->
  ∃ labels, argmax_rows m = Ret labels ∧ Forall2 is_argmax m labels.
Proof.
  induction 1 as [| row m Hrow _ (labels & Hrows & Hall)]; simpl.
  - by exists [].
  - destruct (argmax row) as [k | e] eqn:Hk.
    + rewrite Hrows. exists (k :: labels). split; [done |].
      constructor; [by apply argmax_is_argmax | done].
    + destruct row; [done | discriminate].
Qed.

(** ** Running the estimators *)

(** A regressor's [predict] starts with the remote call, whatever the
    metric. *)
Lemma regressor_predict_full_run (env : Env) (self : TabPFNRegressor.t)
    (X : ndarray) (w : World) (h : InferenceClient) :
  TabPFNRegressor.fitted_ self = true ->
  inference_handler (g_tabpfn_config w) = Some h ->
  TabPFNRegressor.predict_full env self X w =
  (inference_predict env X "regression" (TabPFNRegressor.get_params self),
   {| g_tabpfn_config := g_tabpfn_config w;
      directories := directories w;
      clients_built := clients_built w;
      calls := calls w ++
               [InferencePredict h X "regression"
                  (TabPFNRegressor.get_params self)] |}).
Proof.
  intros Hfit Hh. run_estimator. rewrite Hfit; simpl. by rewrite Hh.
Qed.

(** The three tests on [optimize_metric] all fail on an unsupported value. *)
Lemma unsupported_metric_tests (metric : option string) :
  metric ∉ supported_metrics ->
  py_in metric [Some "mse"; Some "rmse"; Some "r2"; Some "mean"; None] = false
  ∧ py_in metric [Some "mae"; Some "median"] = false
  ∧ py_in metric [Some "mode"; Some "exact_match"] = false.
Proof.
  intros Hnot. unfold py_in, supported_metrics in *.
  split_and!; apply bool_decide_eq_false; intros Hin; apply Hnot;
    rewrite !elem_of_cons in Hin; rewrite !elem_of_cons; tauto.
Qed.

(** ** Claims about [estimator.py] *)

(** C3, as stated, fails: before any [init], [predict] on a classifier
    that was never fitted raises "not fitted", not the error of [fit] for a
    missing [init]. *)
Lemma predict_uninitialized_counterexample :
  truthy (is_initialized (g_tabpfn_config world0)) = false
  ∧ (TabPFNClassifier.predict env_login classifier_fresh X_example world0).1
    = Raise NotFittedError
  ∧ ¬ (∃ cls,
        (TabPFNClassifier.predict env_login classifier_fresh X_example
           world0).1
        = Raise (not_initialized_error cls)).
Proof.
  split_and!; [done | done |].
  intros [cls Habs]. vm_compute in Habs. discriminate.
Qed.

(** C3, amended.  While [is_initialized] is not true, [fit] of either
    estimator raises the "init() must be called" error and calls no
    collaborator; [predict] does not look at [is_initialized]: on an
    estimator that was never fitted it raises "not fitted", for either
    estimator. *)
Theorem fit_requires_init (env : Env) (X y : ndarray) (w : World)
    (Hinit : truthy (is_initialized (g_tabpfn_config w)) = false) :
  (∀ self, TabPFNClassifier.fit env self X y w
           = (Raise (not_initialized_error "TabPFNClassifier"), w))
  ∧ (∀ self, TabPFNRegressor.fit env self X y w
             = (Raise (not_initialized_error "TabPFNRegressor"), w))
  ∧ (∀ self, TabPFNClassifier.fitted_ self = false →
             TabPFNClassifier.predict env self X w
             = (Raise NotFittedError, w))
  ∧ (∀ self, TabPFNRegressor.fitted_ self = false →
             TabPFNRegressor.predict env self X w
             = (Raise NotFittedError, w)).
Proof.
  split_and!; intros self; run_estimator.
  - by rewrite Hinit.
  - by rewrite Hinit.
  - by intros ->.
  - by intros ->.
Qed.

Lemma fit_requires_init_witness :
  truthy (is_initialized (g_tabpfn_config world0)) = false
  ∧ (TabPFNClassifier.fit env_login classifier_fresh X_example y_example
       world0).1
    = Raise (not_initialized_error "TabPFNClassifier").
Proof.
  split.
  - reflexivity.
  - exact (f_equal fst
             (proj1 (fit_requires_init env_login X_example y_example world0
                       eq_refl) classifier_fresh)).
Defined.

(** C6.  When the inference client answers a fitted classifier with a
    mapping whose "probas" entry is a matrix with non-empty rows, [predict]
    returns one label per row, the index of the first largest entry of that
    row. *)
Theorem classifier_predict_argmax (env : Env) (self : TabPFNClassifier.t)
    (X : ndarray) (w : World) (h : InferenceClient)
    (response : gmap string ndarray) (m : list (list Q))
    (Hfit : TabPFNClassifier.fitted_ self = true)
    (Hh : inference_handler (g_tabpfn_config w) = Some h)
    (Hans : inference_predict env X "classification"
              (TabPFNClassifier.get_params self) = Ret response)
    (Hprobas : response !! "probas" = Some (Arr2 m))
    (Hrows : Forall (λ row, row ≠ []) m) :
  ∃ labels,
    (TabPFNClassifier.predict env self X w).1 = Ret labels
    ∧ Forall2 is_argmax m labels.
Proof.
  destruct (argmax_rows_spec m Hrows) as (labels & Hlabels & Hall).
  exists labels. split; [| done].
  run_estimator. rewrite Hfit; simpl. rewrite Hh; simpl.
  unfold TabPFNClassifier.get_params in *. rewrite Hans; simpl.
  rewrite Hprobas; simpl. done.
Qed.

(** The example of the specification: probabilities
    [[0.1, 0.9], [0.7, 0.3]] give the labels [1, 0]. *)
Example classifier_predict_example :
  (TabPFNClassifier.predict (env_answering false true probas_response)
     classifier_fitted X_example world_server).1
  = Ret [1%nat; 0%nat].
Proof. by vm_compute. Qed.

Lemma classifier_predict_argmax_witness :
  ∃ labels,
    (TabPFNClassifier.predict (env_answering false true probas_response)
       classifier_fitted X_example world_server).1 = Ret labels
    ∧ Forall2 is_argmax [[1 # 10; 9 # 10]; [7 # 10; 3 # 10]]%Q labels.
Proof.
  apply (classifier_predict_argmax (env_answering false true probas_response)
           classifier_fitted X_example world_server
           {| inference_service_client := {| client_id := 0 |} |}
           probas_response).
  - reflexivity.
  - reflexivity.
  - reflexivity.
  - vm_compute. reflexivity.
  - repeat constructor; discriminate.
Defined.

(** C7.  For a fitted regressor whose remote [predict] answered with the
    mapping [d], [predict] returns the "mean" entry of [d] when
    [optimize_metric] is mse, rmse, r2, mean or [None], the "median" entry
    when it is mae or median, the "mode" entry when it is mode or
    exact_match, and raises the "not supported" [ValueError] for every other
    value. *)
Theorem regressor_predict_selects (env : Env) (self : TabPFNRegressor.t)
    (X : ndarray) (w : World) (h : InferenceClient)
    (d : gmap string ndarray)
    (Hfit : TabPFNRegressor.fitted_ self = true)
    (Hh : inference_handler (g_tabpfn_config w) = Some h)
    (Hans : inference_predict env X "regression"
              (TabPFNRegressor.get_params self) = Ret d) :
  let metric :=
    TabPFNRegressorParams.optimize_metric (TabPFNRegressor.params self) in
  let result := (TabPFNRegressor.predict env self X w).1 in
  (metric ∈ [Some "mse"; Some "rmse"; Some "r2"; Some "mean"; None] →
   ∀ v, d !! "mean" = Some v → result = Ret v)
  ∧ (metric ∈ [Some "mae"; Some "median"] →
     ∀ v, d !! "median" = Some v → result = Ret v)
  ∧ (metric ∈ [Some "mode"; Some "exact_match"] →
     ∀ v, d !! "mode" = Some v → result = Ret v)
  ∧ (metric ∉ supported_metrics →
     result = Raise (ValueError ("Optimize metric " ++ py_str metric
                                 ++ " not supported")%string)).
Proof.
  intros metric result. subst result.
  unfold TabPFNRegressor.predict, bind.
  rewrite (regressor_predict_full_run env self X w h Hfit Hh), Hans.
  fold metric. unfold TabPFNRegressor.getitem, raise, ret.
  split_and!.
  - intros Hin v Hv. rewrite !elem_of_cons, elem_of_nil in Hin.
    destruct Hin as [-> | [-> | [-> | [-> | [-> | []]]]]];
      simpl; by rewrite Hv.
  - intros Hin v Hv. rewrite !elem_of_cons, elem_of_nil in Hin.
    destruct Hin as [-> | [-> | []]]; simpl; by rewrite Hv.
  - intros Hin v Hv. rewrite !elem_of_cons, elem_of_nil in Hin.
    destruct Hin as [-> | [-> | []]]; simpl; by rewrite Hv.
  - intros Hnot.
    destruct (unsupported_metric_tests metric Hnot) as (-> & -> & ->).
    done.
Qed.

Lemma regressor_predict_selects_witness :
  (TabPFNRegressor.predict (env_answering false true full_prediction)
     (regressor_fitted (Some "rmse")) X_example world_server).1
  = Ret (Arr1 [1 # 2; 3 # 2]%Q).
Proof.
  apply (proj1 (regressor_predict_selects
                  (env_answering false true full_prediction)
                  (regressor_fitted (Some "rmse")) X_example world_server
                  {| inference_service_client := {| client_id := 0 |} |}
                  full_prediction eq_refl eq_refl eq_refl)).
  - rewrite !elem_of_cons. right. by left.
  - vm_compute. reflexivity.
Defined.

(** The examples of the specification: "median" selects the "median"
    entry and "bogus" raises. *)
Example regressor_predict_examples :
  (TabPFNRegressor.predict (env_answering false true full_prediction)
     (regressor_fitted (Some "median")) X_example world_server).1
  = Ret (Arr1 [2 # 5; 8 # 5]%Q)
  ∧ (TabPFNRegressor.predict (env_answering false true full_prediction)
       (regressor_fitted (Some "bogus")) X_example world_server).1
    = Raise (ValueError "Optimize metric bogus not supported").
Proof. split; by vm_compute. Qed.

(** C8.  In a reachable world whose session is in server mode (then it is
    initialized and has an inference client [h]), [fit] of an estimator
    whose [model] is not "latest_tabpfn_hosted" prints the assertion's
    message and goes on: it calls [h.fit(X, y)] and, when that call returns,
    returns the estimator with [fitted_] set; an exception can only be the
    one of the remote call.  This holds for both estimators. *)
Theorem fit_sentinel_mismatch_warns (env : Env) (X y : ndarray) (w : World)
    (Hreach : reachable w)
    (Hserver : use_server (g_tabpfn_config w) = Some true) :
  is_initialized (g_tabpfn_config w) = Some true
  ∧ ∃ h, inference_handler (g_tabpfn_config w) = Some h
    ∧ (∀ self,
         TabPFNClassifierParams.model (TabPFNClassifier.params self)
           ≠ "latest_tabpfn_hosted" →
         let r := TabPFNClassifier.fit env self X y w in
         calls r.2 = calls w ++ [PrintOut sentinel_warning; InferenceFit h X y]
         ∧ (inference_fit env X y = Ret tt →
            r.1 = Ret {| TabPFNClassifier.params :=
                           TabPFNClassifier.params self;
                         TabPFNClassifier.fitted_ := true |})
         ∧ (∀ e, inference_fit env X y = Raise e → r.1 = Raise e))
    ∧ (∀ self,
         TabPFNRegressorParams.model (TabPFNRegressor.params self)
           ≠ "latest_tabpfn_hosted" →
         let r := TabPFNRegressor.fit env self X y w in
         calls r.2 = calls w ++ [PrintOut sentinel_warning; InferenceFit h X y]
         ∧ (inference_fit env X y = Ret tt →
            r.1 = Ret {| TabPFNRegressor.params :=
                           TabPFNRegressor.params self;
                         TabPFNRegressor.fitted_ := true |})
         ∧ (∀ e, inference_fit env X y = Raise e → r.1 = Raise e)).
Proof.
  destruct (reachable_session_invariant w Hreach) as (Hs & _ & _).
  destruct (Hs Hserver) as (Hinit & _ & [h Hh]).
  split; [done |]. exists h. split; [done |].
  split; intros self Hmodel; apply String.eqb_neq in Hmodel;
    run_estimator; rewrite Hinit; simpl; rewrite Hserver; simpl;
    rewrite Hmodel; simpl; rewrite Hh; simpl;
    (split_and!;
     [ destruct (inference_fit env X y); simpl; by rewrite <- app_assoc
     | by intros ->
     | by intros e -> ]).
Qed.

Lemma fit_sentinel_mismatch_warns_witness :
  use_server (g_tabpfn_config world_server) = Some true
  ∧ is_initialized (g_tabpfn_config world_server) = Some true.
Proof.
  split.
  - reflexivity.
  - exact (proj1 (fit_sentinel_mismatch_warns env_login X_example y_example
                    world_server reachable_world_server eq_refl)).
Defined.

(** The same on an example: the warning is printed, the remote [fit] is
    called and the estimator comes back fitted. *)
Example fit_other_model_example :
  let r := TabPFNClassifier.fit env_login classifier_other_model X_example
             y_example world_server in
  r.1 = Ret {| TabPFNClassifier.params :=
                 TabPFNClassifier.params classifier_other_model;
               TabPFNClassifier.fitted_ := true |}
  ∧ calls r.2 =
    calls world_server ++
    [PrintOut sentinel_warning;
     InferenceFit {| inference_service_client := {| client_id := 0 |} |}
       X_example y_example].
Proof. split; by vm_compute. Qed.

(** C9.  When an address is recorded in [user_email] and the auth client
    reports it unverified, the constructor of either estimator raises the
    "email has not been verified" error; the only call it made is the
    query of the verification status, so no [fit] reached the inference
    client, and no instance exists on which [fit] could be called. *)
Theorem unverified_email_blocks_construction (env : Env) (w : World)
    (h : UserAuthenticationClient) (email : string)
    (Hmail : user_email (g_tabpfn_config w) = Some email)
    (Hrecorded : email ≠ "")
    (Hh : user_auth_handler (g_tabpfn_config w) = Some h)
    (Hunverified : get_user_email_verification_status env email = Ret false) :
  (∀ p, (TabPFNClassifier.__init__ env p w).1 = Raise unverified_email_error
        ∧ calls (TabPFNClassifier.__init__ env p w).2
          = calls w ++ [GetUserEmailVerificationStatus h email])
  ∧ (∀ p, (TabPFNRegressor.__init__ env p w).1 = Raise unverified_email_error
          ∧ calls (TabPFNRegressor.__init__ env p w).2
            = calls w ++ [GetUserEmailVerificationStatus h email]).
Proof.
  apply String.eqb_neq in Hrecorded.
  split; intros p; run_estimator;
    rewrite Hmail; simpl; rewrite Hrecorded; simpl;
    rewrite Hh; simpl; rewrite Hunverified; simpl; done.
Qed.

Lemma unverified_email_blocks_construction_witness :
  user_email (g_tabpfn_config world_server) = Some "user@example.org"
  ∧ (TabPFNClassifier.__init__ (env_answering false false ∅)
       TabPFNClassifierParams.defaults world_server).1
    = Raise unverified_email_error.
Proof.
  split.
  - reflexivity.
  - apply (proj1 (unverified_email_blocks_construction
                    (env_answering false false ∅) world_server
                    {| auth_service_client := {| client_id := 0 |} |}
                    "user@example.org" eq_refl
                    ltac:(discriminate) eq_refl eq_refl)
                 TabPFNClassifierParams.defaults).
Defined.

(** C10.  A fitted regressor whose [optimize_metric] is not a supported
    value still sends the request: [predict] calls the inference client's
    [predict] once, and only when that call has returned does it raise the
    "not supported" [ValueError]; when the call raises, that exception is
    the one that leaves [predict]. *)
Theorem regressor_predict_validates_late (env : Env)
    (self : TabPFNRegressor.t) (X : ndarray) (w : World)
    (h : InferenceClient)
    (Hfit : TabPFNRegressor.fitted_ self = true)
    (Hh : inference_handler (g_tabpfn_config w) = Some h)
    (Hmetric :
       TabPFNRegressorParams.optimize_metric (TabPFNRegressor.params self)
         ∉ supported_metrics) :
  let metric :=
    TabPFNRegressorParams.optimize_metric (TabPFNRegressor.params self) in
  let r := TabPFNRegressor.predict env self X w in
  calls r.2 = calls w ++ [InferencePredict h X "regression"
                            (TabPFNRegressor.get_params self)]
  ∧ (∀ d, inference_predict env X "regression"
            (TabPFNRegressor.get_params self) = Ret d →
          r.1 = Raise (ValueError ("Optimize metric " ++ py_str metric
                                   ++ " not supported")%string))
  ∧ (∀ e, inference_predict env X "regression"
            (TabPFNRegressor.get_params self) = Raise e →
          r.1 = Raise e).
Proof.
  intros metric r. subst r.
  unfold TabPFNRegressor.predict, bind.
  rewrite (regressor_predict_full_run env self X w h Hfit Hh).
  fold metric.
  destruct (unsupported_metric_tests metric Hmetric) as (-> & -> & ->).
  destruct (inference_predict env X "regression"
              (TabPFNRegressor.get_params self)) as [d | e];
    unfold raise; simpl; split_and!; try done.
  by intros e' [= ->].
Qed.

Lemma regressor_predict_validates_late_witness :
  let r := TabPFNRegressor.predict (env_answering false true full_prediction)
             (regressor_fitted (Some "bogus")) X_example world_server in
  calls r.2 =
  calls world_server ++
  [InferencePredict {| inference_service_client := {| client_id := 0 |} |}
     X_example "regression"
     (TabPFNRegressor.get_params (regressor_fitted (Some "bogus")))].
Proof.
  refine (proj1 (regressor_predict_validates_late
                   (env_answering false true full_prediction)
                   (regressor_fitted (Some "bogus")) X_example world_server
                   {| inference_service_client := {| client_id := 0 |} |}
                   eq_refl eq_refl _)).
  unfold supported_metrics. simpl.
  rewrite !not_elem_of_cons. split_and!; try discriminate.
  apply not_elem_of_nil.
Defined.

(** * Further properties of [config.py] *)

(** X1.  When the server is not accessible, a server-mode [init] raises
    the "inaccessible" error right after the connection check: the session
    is as it was, no token is looked up and nothing more is prompted. *)
Theorem init_inaccessible (env : Env) (w : World)
    (Hwelcome : prompt_welcome env = Ret tt)
    (Hclient : service_client_new env = Ret tt)
    (Haccess : is_accessible_connection env = Ret false) :
  let sc := {| client_id := clients_built w |} in
  (init env true w).1
  = Raise (RuntimeError
      "TabPFN is inaccessible at the moment, please try again later.")
  ∧ g_tabpfn_config (init env true w).2 = g_tabpfn_config w
  ∧ calls (init env true w).2
    = calls w ++ [PromptWelcome; NewServiceClient sc;
                  IsAccessibleConnection {| auth_service_client := sc |}].
Proof.
  revert Hwelcome Hclient Haccess. destruct env; simpl.
  intros -> -> ->. run_py. split_and!; try done.
  by rewrite <- !app_assoc.
Qed.

Lemma init_inaccessible_witness :
  g_tabpfn_config (init env_inaccessible true world0).2
  = g_tabpfn_config world0.
Proof.
  exact (proj1 (proj2 (init_inaccessible env_inaccessible world0
                         eq_refl eq_refl eq_refl))).
Defined.

(** X2.  When no cached token is found and the user does not agree to
    the terms, a server-mode [init] raises the "must agree" error before the
    login prompt: the session, [user_email] included, is as it was, and the
    last call made is the terms prompt. *)
Theorem init_terms_refused (env : Env) (w : World)
    (Hwelcome : prompt_welcome env = Ret tt)
    (Hclient : service_client_new env = Ret tt)
    (Haccess : is_accessible_connection env = Ret true)
    (Hcached : try_reuse_existing_token env = Ret false)
    (Hterms : prompt_terms_and_cond env = Ret false) :
  let h := {| auth_service_client := {| client_id := clients_built w |} |} in
  (init env true w).1
  = Raise (RuntimeError
      "You must agree to the terms and conditions to use TabPFN")
  ∧ g_tabpfn_config (init env true w).2 = g_tabpfn_config w
  ∧ calls (init env true w).2
    = calls w ++ [PromptWelcome;
                  NewServiceClient {| client_id := clients_built w |};
                  IsAccessibleConnection h; TryReuseExistingToken h;
                  PromptTermsAndCond].
Proof.
  revert Hwelcome Hclient Haccess Hcached Hterms. destruct env; simpl.
  intros -> -> -> -> ->. run_py. split_and!; try done.
  by rewrite <- !app_assoc.
Qed.

Lemma init_terms_refused_witness :
  g_tabpfn_config (init env_refusing true world0).2 = g_tabpfn_config world0.
Proof.
  exact (proj1 (proj2 (init_terms_refused env_refusing world0
                         eq_refl eq_refl eq_refl eq_refl eq_refl))).
Defined.

(** X3.  A server-mode [init] that raises, at whatever step, has
    assigned none of [is_initialized], [use_server], [user_auth_handler] and
    [inference_handler], and has removed no directory: a session that was
    initialized stays so, with the handles it had. *)
Theorem init_server_failure_frame (env : Env) (w : World) (e : exn)
    (Hraise : (init env true w).1 = Raise e) :
  is_initialized (g_tabpfn_config (init env true w).2)
  = is_initialized (g_tabpfn_config w)
  ∧ use_server (g_tabpfn_config (init env true w).2)
    = use_server (g_tabpfn_config w)
  ∧ user_auth_handler (g_tabpfn_config (init env true w).2)
    = user_auth_handler (g_tabpfn_config w)
  ∧ inference_handler (g_tabpfn_config (init env true w).2)
    = inference_handler (g_tabpfn_config w)
  ∧ directories (init env true w).2 = directories w.
Proof.
  destruct (init_server_raise_frame env w e Hraise) as (E1 & E2 & E3 & E4).
  split_and!; try done.
  clear. run_py. destruct env; simpl. repeat (step_py; try done).
Qed.

Lemma init_server_failure_frame_witness :
  is_initialized (g_tabpfn_config (init env_refusing true world_server).2)
  = Some true.
Proof.
  exact (proj1 (init_server_failure_frame env_refusing world_server
                  (RuntimeError
                     "You must agree to the terms and conditions to use TabPFN")
                  eq_refl)).
Defined.

(** X4.  [user_email] is assigned as soon as the login prompt returns:
    when the retrieval of the greeting messages raises afterwards, [init]
    raises that exception and the address stays recorded although
    [is_initialized], [use_server] and the handles are as before. *)
Theorem init_email_recorded_before_failure (env : Env) (w : World)
    (email : string) (e : exn)
    (Hwelcome : prompt_welcome env = Ret tt)
    (Hclient : service_client_new env = Ret tt)
    (Haccess : is_accessible_connection env = Ret true)
    (Hcached : try_reuse_existing_token env = Ret false)
    (Hterms : prompt_terms_and_cond env = Ret true)
    (Hlogin : prompt_and_set_token env = Ret email)
    (Hgreet : retrieve_greeting_messages env = Raise e) :
  (init env true w).1 = Raise e
  ∧ g_tabpfn_config (init env true w).2
    = {| is_initialized := is_initialized (g_tabpfn_config w);
         user_email := Some email;
         use_server := use_server (g_tabpfn_config w);
         user_auth_handler := user_auth_handler (g_tabpfn_config w);
         inference_handler := inference_handler (g_tabpfn_config w) |}.
Proof.
  revert Hwelcome Hclient Haccess Hcached Hterms Hlogin Hgreet.
  destruct env; simpl. intros -> -> -> -> -> -> ->.
  split; reflexivity.
Qed.

Lemma init_email_recorded_before_failure_witness :
  user_email (g_tabpfn_config (init env_greeting_fails true world0).2)
  = Some "user@example.org"
  ∧ is_initialized (g_tabpfn_config (init env_greeting_fails true world0).2)
    = None.
Proof.
  pose proof (proj2 (init_email_recorded_before_failure env_greeting_fails
                       world0 "user@example.org" (CollaboratorError 503)
                       eq_refl eq_refl eq_refl eq_refl eq_refl eq_refl
                       eq_refl)) as ->.
  by split.
Defined.

(** X5.  A server-mode [init] that finds a cached token and returns has
    shown neither the terms nor the login prompt: its calls are the welcome,
    the new client, the connection check, the token lookup, the "reusing"
    notice and the greeting messages, in this order. *)
Theorem init_cached_calls (env : Env) (w : World)
    (Hcached : try_reuse_existing_token env = Ret true)
    (Hret : (init env true w).1 = Ret tt) :
  let h := {| auth_service_client := {| client_id := clients_built w |} |} in
  ∃ msgs,
    retrieve_greeting_messages env = Ret msgs
    ∧ calls (init env true w).2
      = calls w ++ [PromptWelcome;
                    NewServiceClient {| client_id := clients_built w |};
                    IsAccessibleConnection h; TryReuseExistingToken h;
                    PromptReusingExistingToken; RetrieveGreetingMessages h;
                    PromptRetrievedGreetingMessages msgs].
Proof.
  revert Hcached Hret. destruct env; simpl. intros ->. run_py.
  repeat (step_py; try done). intros _.
  eexists. split; [done |]. by rewrite <- !app_assoc.
Qed.

Lemma init_cached_calls_witness :
  ∃ msgs,
    retrieve_greeting_messages env_cached = Ret msgs
    ∧ calls (init env_cached true world0).2
      = [PromptWelcome; NewServiceClient {| client_id := 0 |};
         IsAccessibleConnection
           {| auth_service_client := {| client_id := 0 |} |};
         TryReuseExistingToken
           {| auth_service_client := {| client_id := 0 |} |};
         PromptReusingExistingToken;
         RetrieveGreetingMessages
           {| auth_service_client := {| client_id := 0 |} |};
         PromptRetrievedGreetingMessages msgs].
Proof.
  exact (init_cached_calls env_cached world0 eq_refl eq_refl).
Defined.




(** X7.  In every world reachable by calls of [init] and [reset], the
    auth handle and the inference handle, when both are set, are wrappers of
    the same service client. *)
Theorem reachable_handles_share_client (w : World) (Hreach : reachable w) :
  handles_share_client (g_tabpfn_config w).
Proof.
  induction Hreach as [w Hnew | env b w _ IH | env w _ _].
  - rewrite Hnew. intros a i [=].
  - destruct b.
    + destruct (init env true w).1 as [[] | e] eqn:Hrun.
      * destruct (init_server_ret env w Hrun) as (cached & _ & ->).
        intros a i [= <-] [= <-]. done.
      * destruct (init_server_raise_frame env w e Hrun)
          as (_ & _ & E3 & E4).
        intros a i. rewrite E3, E4. apply IH.
    + rewrite init_local_run. exact IH.
  - rewrite reset_run. intros a i [=].
Qed.

Lemma reachable_handles_share_client_witness :
  handles_share_client (g_tabpfn_config world_server).
Proof.
  exact (reachable_handles_share_client world_server reachable_world_server).
Defined.

(** * Further properties of [estimator.py] *)

(** ** The session is read, never written *)

Lemma session_frame_ret {A} (a : A) : session_frame (ret a).
Proof. by intros w. Qed.

Lemma session_frame_raise {A} (e : exn) : session_frame (@raise A e).
Proof. by intros w. Qed.

Lemma session_frame_lift {A} (o : outcome A) : session_frame (lift o).
Proof. by intros w. Qed.

Lemma session_frame_get : session_frame get_config.
Proof. by intros w. Qed.

Lemma session_frame_call {A} (ev : event) (answer : outcome A) :
  session_frame (call ev answer).
Proof. by intros w. Qed.

Lemma session_frame_bind {A B} (m : M A) (k : A -> M B) :
  session_frame m -> (∀ a, session_frame (k a)) -> session_frame (bind m k).
Proof.
  intros Hm Hk w. unfold bind.
  destruct (Hm w) as (E1 & E2 & E3).
  destruct (m w) as [[a | e] w1]; simpl in *.
  - destruct (Hk a w1) as (F1 & F2 & F3).
    rewrite F1, F2, F3. done.
  - done.
Qed.

Ltac frame_py :=
  repeat first
    [ apply session_frame_ret
    | apply session_frame_raise
    | apply session_frame_lift
    | apply session_frame_get
    | apply session_frame_call
    | apply session_frame_bind; [| intros ?]
    | match goal with
      | |- session_frame (if ?b then _ else _) => destruct b
      | |- session_frame (match ?x with _ => _ end) => destruct x
      end ].

(** X8.  No operation of an estimator assigns to the session, removes a
    directory or builds a service client: the constructors, [fit],
    [predict], [predict_proba] and [predict_full] of both estimators leave
    [g_tabpfn_config] as it was, whatever the collaborators answer. *)
Theorem estimators_keep_session (env : Env) (X y : ndarray) :
  (∀ p, session_frame (TabPFNClassifier.__init__ env p))
  ∧ (∀ self, session_frame (TabPFNClassifier.fit env self X y))
  ∧ (∀ self, session_frame (TabPFNClassifier.predict_proba env self X))
  ∧ (∀ self, session_frame (TabPFNClassifier.predict env self X))
  ∧ (∀ p, session_frame (TabPFNRegressor.__init__ env p))
  ∧ (∀ self, session_frame (TabPFNRegressor.fit env self X y))
  ∧ (∀ self, session_frame (TabPFNRegressor.predict_full env self X))
  ∧ (∀ self, session_frame (TabPFNRegressor.predict env self X)).
Proof.
  split_and!; intros self.
  - unfold TabPFNClassifier.__init__. frame_py.
  - unfold TabPFNClassifier.fit. frame_py.
  - unfold TabPFNClassifier.predict_proba, TabPFNClassifier.check_is_fitted.
    frame_py.
  - unfold TabPFNClassifier.predict, TabPFNClassifier.predict_proba,
      TabPFNClassifier.check_is_fitted. frame_py.
  - unfold TabPFNRegressor.__init__. frame_py.
  - unfold TabPFNRegressor.fit. frame_py.
  - unfold TabPFNRegressor.predict_full, TabPFNRegressor.check_is_fitted.
    frame_py.
  - unfold TabPFNRegressor.predict, TabPFNRegressor.predict_full,
      TabPFNRegressor.check_is_fitted, TabPFNRegressor.getitem. frame_py.
Qed.

(** ** [fit] *)

(** X9.  [reset] de-initializes: whatever the world before, [fit] of
    either estimator called after [reset] raises the "init() must be called"
    error and the only call logged since before [reset] is the removal of
    the cache directory. *)
Theorem reset_then_fit (env env' : Env) (X y : ndarray) (w : World) :
  (∀ self,
     (TabPFNClassifier.fit env' self X y (reset env w).2).1
     = Raise (not_initialized_error "TabPFNClassifier")
     ∧ calls (TabPFNClassifier.fit env' self X y (reset env w).2).2
       = calls w ++ [Rmtree (CACHE_DIR env)])
  ∧ (∀ self,
       (TabPFNRegressor.fit env' self X y (reset env w).2).1
       = Raise (not_initialized_error "TabPFNRegressor")
       ∧ calls (TabPFNRegressor.fit env' self X y (reset env w).2).2
         = calls w ++ [Rmtree (CACHE_DIR env)]).
Proof.
  rewrite reset_run. split; intros self; by run_estimator.
Qed.

(** X10.  In local mode, that is when [is_initialized] is true and
    [use_server] is not, [fit] of either estimator raises
    [NotImplementedError] and calls no collaborator. *)
Theorem fit_local_mode_unsupported (env : Env) (X y : ndarray) (w : World)
    (Hinit : truthy (is_initialized (g_tabpfn_config w)) = true)
    (Hlocal : truthy (use_server (g_tabpfn_config w)) = false) :
  let error :=
    NotImplementedError
      "Only server mode is supported at the moment for init(use_server=False)"
  in
  (∀ self, TabPFNClassifier.fit env self X y w = (Raise error, w))
  ∧ (∀ self, TabPFNRegressor.fit env self X y w = (Raise error, w)).
Proof.
  split; intros self; run_estimator; rewrite Hinit; simpl;
    by rewrite Hlocal.
Qed.

Lemma fit_local_mode_unsupported_witness :
  (TabPFNClassifier.fit env_login classifier_fresh X_example y_example
     (init env_login false world0).2).1
  = Raise (NotImplementedError
      "Only server mode is supported at the moment for init(use_server=False)").
Proof.
  exact (f_equal fst
           (proj1 (fit_local_mode_unsupported env_login X_example y_example
                     (init env_login false world0).2 eq_refl eq_refl)
                  classifier_fresh)).
Defined.

(** X11.  In a reachable server-mode world, [fit] of an estimator whose
    [model] is "latest_tabpfn_hosted" prints nothing: its only call is the
    remote [fit], and the estimator comes back fitted when that call
    returns.  Both estimators. *)
Theorem fit_hosted_model_silent (env : Env) (X y : ndarray) (w : World)
    (Hreach : reachable w)
    (Hserver : use_server (g_tabpfn_config w) = Some true) :
  ∃ h, inference_handler (g_tabpfn_config w) = Some h
    ∧ (∀ self,
         TabPFNClassifierParams.model (TabPFNClassifier.params self)
           = "latest_tabpfn_hosted" →
         let r := TabPFNClassifier.fit env self X y w in
         calls r.2 = calls w ++ [InferenceFit h X y]
         ∧ (inference_fit env X y = Ret tt →
            r.1 = Ret {| TabPFNClassifier.params :=
                           TabPFNClassifier.params self;
                         TabPFNClassifier.fitted_ := true |}))
    ∧ (∀ self,
         TabPFNRegressorParams.model (TabPFNRegressor.params self)
           = "latest_tabpfn_hosted" →
         let r := TabPFNRegressor.fit env self X y w in
         calls r.2 = calls w ++ [InferenceFit h X y]
         ∧ (inference_fit env X y = Ret tt →
            r.1 = Ret {| TabPFNRegressor.params :=
                           TabPFNRegressor.params self;
                         TabPFNRegressor.fitted_ := true |})).
Proof.
  destruct (reachable_session_invariant w Hreach) as (Hs & _ & _).
  destruct (Hs Hserver) as (Hinit & _ & [h Hh]).
  exists h. split; [done |].
  split; intros self Hmodel;
    run_estimator; rewrite Hinit; simpl; rewrite Hserver; simpl;
    rewrite Hmodel; simpl; rewrite Hh; simpl;
    (split; [ by destruct (inference_fit env X y) | by intros -> ]).
Qed.

Lemma fit_hosted_model_silent_witness :
  ∃ h, inference_handler (g_tabpfn_config world_server) = Some h
    ∧ calls (TabPFNClassifier.fit env_login classifier_fresh X_example
               y_example world_server).2
      = calls world_server ++ [InferenceFit h X_example y_example].
Proof.
  destruct (fit_hosted_model_silent env_login X_example y_example
              world_server reachable_world_server eq_refl)
    as (h & Hh & Hclf & _).
  exists h. split; [exact Hh |].
  exact (proj1 (Hclf classifier_fresh eq_refl)).
Defined.

(** ** [predict] *)

(** What [predict_proba] does when the estimator is fitted and an
    inference client is there. *)
Lemma classifier_predict_proba_run (env : Env) (self : TabPFNClassifier.t)
    (X : ndarray) (w : World) (h : InferenceClient) :
  TabPFNClassifier.fitted_ self = true ->
  inference_handler (g_tabpfn_config w) = Some h ->
  TabPFNClassifier.predict_proba env self X w =
  (probas_of (inference_predict env X "classification"
                (TabPFNClassifier.get_params self)),
   {| g_tabpfn_config := g_tabpfn_config w;
      directories := directories w;
      clients_built := clients_built w;
      calls := calls w ++
               [InferencePredict h X "classification"
                  (TabPFNClassifier.get_params self)] |}).
Proof.
  intros Hfit Hh. run_estimator. rewrite Hfit; simpl. rewrite Hh; simpl.
  destruct (inference_predict env X "classification"
              (TabPFNClassifier.get_params self)) as [d | e]; simpl;
    [| done].
  by destruct (d !! "probas").
Qed.

(** X12.  In a reachable world whose session is not initialized (never
    initialized, or reset since), [predict] of an estimator that was fitted
    earlier raises [AttributeError] on the null inference handler and
    reaches no collaborator.  Both estimators. *)
Theorem predict_without_session (env : Env) (X : ndarray) (w : World)
    (Hreach : reachable w)
    (Hinit : truthy (is_initialized (g_tabpfn_config w)) = false) :
  let error :=
    AttributeError "'NoneType' object has no attribute 'predict'" in
  (∀ self, TabPFNClassifier.fitted_ self = true →
           TabPFNClassifier.predict env self X w = (Raise error, w))
  ∧ (∀ self, TabPFNRegressor.fitted_ self = true →
             TabPFNRegressor.predict env self X w = (Raise error, w)).
Proof.
  destruct (reachable_session_invariant w Hreach) as (_ & Hh & _).
  assert (Hnull : inference_handler (g_tabpfn_config w) = None).
  { destruct (inference_handler (g_tabpfn_config w)) eqn:E; [| done].
    destruct Hh as [Habs _]; [right; eauto |].
    rewrite Habs in Hinit. discriminate. }
  split; intros self Hfit; run_estimator; rewrite Hfit; simpl;
    by rewrite Hnull.
Qed.

Lemma predict_without_session_witness :
  (TabPFNClassifier.predict env_login classifier_fitted X_example
     (reset env_login world_server).2).1
  = Raise (AttributeError "'NoneType' object has no attribute 'predict'").
Proof.
  exact (f_equal fst
           (proj1 (predict_without_session env_login X_example
                     (reset env_login world_server).2
                     (reachable_reset env_login world_server
                        reachable_world_server)
                     eq_refl)
                  classifier_fitted eq_refl)).
Defined.

(** X13.  [fit] then [predict_proba]: in a reachable server-mode world,
    when the remote [fit] returns, the estimator [fit] returns keeps its
    parameters and passes [check_is_fitted]: a later [predict_proba] sends
    those parameters to the inference client that [fit] used and returns the
    "probas" entry of the answer. *)
Theorem fit_then_predict_proba (env env' : Env) (self : TabPFNClassifier.t)
    (X y X' : ndarray) (w : World)
    (Hreach : reachable w)
    (Hserver : use_server (g_tabpfn_config w) = Some true)
    (Hfit : inference_fit env X y = Ret tt) :
  ∃ self' h,
    (TabPFNClassifier.fit env self X y w).1 = Ret self'
    ∧ TabPFNClassifier.params self' = TabPFNClassifier.params self
    ∧ inference_handler (g_tabpfn_config w) = Some h
    ∧ (TabPFNClassifier.predict_proba env' self' X'
         (TabPFNClassifier.fit env self X y w).2).1
      = probas_of (inference_predict env' X' "classification"
                     (ClassifierConfig (TabPFNClassifier.params self)))
    ∧ filter (λ ev, is_inference_call ev = true)
        (calls (TabPFNClassifier.predict_proba env' self' X'
                  (TabPFNClassifier.fit env self X y w).2).2)
      = filter (λ ev, is_inference_call ev = true) (calls w)
        ++ [InferenceFit h X y;
            InferencePredict h X' "classification"
              (ClassifierConfig (TabPFNClassifier.params self))].
Proof.
  destruct (reachable_session_invariant w Hreach) as (Hs & _ & _).
  destruct (Hs Hserver) as (Hinit & _ & [h Hh]).
  pose (self' := {| TabPFNClassifier.params := TabPFNClassifier.params self;
                    TabPFNClassifier.fitted_ := true |}).
  assert (Hframe : g_tabpfn_config (TabPFNClassifier.fit env self X y w).2
                   = g_tabpfn_config w).
  { assert (Hf : session_frame (TabPFNClassifier.fit env self X y))
      by (unfold TabPFNClassifier.fit; frame_py).
    apply Hf. }
  exists self', h.
  rewrite (classifier_predict_proba_run env' self' X' _ h eq_refl)
    by (by rewrite Hframe).
  simpl. split_and!; try done.
  - revert Hfit. run_estimator. rewrite Hinit; simpl. rewrite Hserver; simpl.
    destruct (String.eqb _ _); simpl; rewrite Hh; simpl; by intros ->.
  - run_estimator. rewrite Hinit; simpl. rewrite Hserver; simpl.
    destruct (String.eqb _ _); simpl; rewrite Hh; simpl;
      destruct (inference_fit env X y); simpl;
      rewrite !filter_app; simpl; by rewrite <- !app_assoc.
Qed.

Lemma fit_then_predict_proba_witness :
  ∃ self' h,
    (TabPFNClassifier.fit env_login classifier_fresh X_example y_example
       world_server).1 = Ret self'
    ∧ TabPFNClassifier.params self' = TabPFNClassifier.params classifier_fresh
    ∧ inference_handler (g_tabpfn_config world_server) = Some h.
Proof.
  destruct (fit_then_predict_proba env_login
              (env_answering false true probas_response) classifier_fresh
              X_example y_example X_example world_server
              reachable_world_server eq_refl eq_refl)
    as (self' & h & H1 & H2 & H3 & _).
  exists self', h. by split_and!.
Defined.

(** X14.  A fitted classifier in a world with an inference client [h]:
    [predict] makes exactly one call, [h.predict] for the task
    "classification" with the estimator's parameters; when the answer has no
    "probas" entry it raises [KeyError], and when the call raises, that
    exception leaves [predict]. *)
Theorem classifier_predict_failures (env : Env) (self : TabPFNClassifier.t)
    (X : ndarray) (w : World) (h : InferenceClient)
    (Hfit : TabPFNClassifier.fitted_ self = true)
    (Hh : inference_handler (g_tabpfn_config w) = Some h) :
  let answer := inference_predict env X "classification"
                  (TabPFNClassifier.get_params self) in
  let r := TabPFNClassifier.predict env self X w in
  calls r.2 = calls w ++ [InferencePredict h X "classification"
                            (TabPFNClassifier.get_params self)]
  ∧ (∀ d, answer = Ret d → d !! "probas" = None →
          r.1 = Raise (KeyError "probas"))
  ∧ (∀ e, answer = Raise e → r.1 = Raise e).
Proof.
  intros answer r. subst r.
  unfold TabPFNClassifier.predict, bind, lift.
  rewrite (classifier_predict_proba_run env self X w h Hfit Hh).
  fold answer. destruct answer as [d | e]; simpl.
  - destruct (d !! "probas") eqn:Hd; simpl; split_and!; try done.
    by intros d' [= <-] Habs; rewrite Hd in Habs.
  - split_and!; try done. by intros e' [= ->].
Qed.

Lemma classifier_predict_failures_witness :
  (TabPFNClassifier.predict (env_answering false true ∅) classifier_fitted
     X_example world_server).1
  = Raise (KeyError "probas").
Proof.
  exact (proj1 (proj2 (classifier_predict_failures
                         (env_answering false true ∅) classifier_fitted
                         X_example world_server
                         {| inference_service_client := {| client_id := 0 |} |}
                         eq_refl eq_refl))
               ∅ eq_refl eq_refl).
Defined.

(** X15.  A fitted regressor whose remote [predict] answered with a
    mapping that lacks the entry its [optimize_metric] selects raises
    [KeyError] for that entry: "mean", "median" or "mode". *)
Theorem regressor_predict_missing_field (env : Env)
    (self : TabPFNRegressor.t) (X : ndarray) (w : World)
    (h : InferenceClient) (d : gmap string ndarray)
    (Hfit : TabPFNRegressor.fitted_ self = true)
    (Hh : inference_handler (g_tabpfn_config w) = Some h)
    (Hans : inference_predict env X "regression"
              (TabPFNRegressor.get_params self) = Ret d) :
  let metric :=
    TabPFNRegressorParams.optimize_metric (TabPFNRegressor.params self) in
  let result := (TabPFNRegressor.predict env self X w).1 in
  (metric ∈ [Some "mse"; Some "rmse"; Some "r2"; Some "mean"; None] →
   d !! "mean" = None → result = Raise (KeyError "mean"))
  ∧ (metric ∈ [Some "mae"; Some "median"] →
     d !! "median" = None → result = Raise (KeyError "median"))
  ∧ (metric ∈ [Some "mode"; Some "exact_match"] →
     d !! "mode" = None → result = Raise (KeyError "mode")).
Proof.
  intros metric result. subst result.
  unfold TabPFNRegressor.predict, bind.
  rewrite (regressor_predict_full_run env self X w h Hfit Hh), Hans.
  fold metric. unfold TabPFNRegressor.getitem, raise, ret.
  split_and!; intros Hin Hd; rewrite !elem_of_cons, elem_of_nil in Hin.
  - destruct Hin as [-> | [-> | [-> | [-> | [-> | []]]]]];
      simpl; by rewrite Hd.
  - destruct Hin as [-> | [-> | []]]; simpl; by rewrite Hd.
  - destruct Hin as [-> | [-> | []]]; simpl; by rewrite Hd.
Qed.

Lemma regressor_predict_missing_field_witness :
  (TabPFNRegressor.predict (env_answering false true ∅)
     (regressor_fitted (Some "mae")) X_example world_server).1
  = Raise (KeyError "median").
Proof.
  apply (proj1 (proj2 (regressor_predict_missing_field
                         (env_answering false true ∅)
                         (regressor_fitted (Some "mae")) X_example
                         world_server
                         {| inference_service_client := {| client_id := 0 |} |}
                         ∅ eq_refl eq_refl eq_refl))).
  - rewrite !elem_of_cons. by left.
  - reflexivity.
Defined.

(** ** The constructors *)

(** X16.  While no address is recorded ([user_email] is [None] or the
    empty string), constructing either estimator calls no collaborator and
    returns an estimator that holds the parameters given and is not
    fitted; this is so before any [init] too. *)
Theorem construct_without_email (env : Env) (w : World)
    (Hnone : truthy_str (user_email (g_tabpfn_config w)) = false) :
  (∀ p, TabPFNClassifier.__init__ env p w
        = (Ret {| TabPFNClassifier.params := p;
                  TabPFNClassifier.fitted_ := false |}, w))
  ∧ (∀ p, TabPFNRegressor.__init__ env p w
          = (Ret {| TabPFNRegressor.params := p;
                    TabPFNRegressor.fitted_ := false |}, w)).
Proof. split; intros p; run_estimator; by rewrite Hnone. Qed.

Lemma construct_without_email_witness :
  (TabPFNClassifier.__init__ env_login TabPFNClassifierParams.defaults
     world0).1
  = Ret classifier_fresh.
Proof.
  exact (f_equal fst
           (proj1 (construct_without_email env_login world0 eq_refl)
                  TabPFNClassifierParams.defaults)).
Defined.

(** X17.  When the recorded address is reported verified, constructing
    either estimator succeeds after exactly one call, the query of the
    verification status of that address. *)
Theorem construct_verified (env : Env) (w : World)
    (h : UserAuthenticationClient) (email : string)
    (Hmail : user_email (g_tabpfn_config w) = Some email)
    (Hrecorded : email ≠ "")
    (Hh : user_auth_handler (g_tabpfn_config w) = Some h)
    (Hverified : get_user_email_verification_status env email = Ret true) :
  (∀ p, (TabPFNClassifier.__init__ env p w).1
        = Ret {| TabPFNClassifier.params := p;
                 TabPFNClassifier.fitted_ := false |}
        ∧ calls (TabPFNClassifier.__init__ env p w).2
          = calls w ++ [GetUserEmailVerificationStatus h email])
  ∧ (∀ p, (TabPFNRegressor.__init__ env p w).1
          = Ret {| TabPFNRegressor.params := p;
                   TabPFNRegressor.fitted_ := false |}
          ∧ calls (TabPFNRegressor.__init__ env p w).2
            = calls w ++ [GetUserEmailVerificationStatus h email]).
Proof.
  apply String.eqb_neq in Hrecorded.
  split; intros p; run_estimator;
    rewrite Hmail; simpl; rewrite Hrecorded; simpl;
    rewrite Hh; simpl; rewrite Hverified; simpl; done.
Qed.

Lemma construct_verified_witness :
  (TabPFNRegressor.__init__ env_login TabPFNRegressorParams.defaults
     world_server).1
  = Ret {| TabPFNRegressor.params := TabPFNRegressorParams.defaults;
           TabPFNRegressor.fitted_ := false |}.
Proof.
  exact (proj1 (proj2 (construct_verified env_login world_server
                         {| auth_service_client := {| client_id := 0 |} |}
                         "user@example.org" eq_refl ltac:(discriminate)
                         eq_refl eq_refl)
                      TabPFNRegressorParams.defaults)).
Defined.

(** X18.  When an address is recorded but there is no auth handle, as
    after a server-mode [init] that raised once the login had returned,
    constructing either estimator raises [AttributeError] on the null
    handle and calls no collaborator. *)
Theorem construct_without_auth_handle (env : Env) (w : World)
    (email : string)
    (Hmail : user_email (g_tabpfn_config w) = Some email)
    (Hrecorded : email ≠ "")
    (Hnull : user_auth_handler (g_tabpfn_config w) = None) :
  let error :=
    AttributeError
      "'NoneType' object has no attribute 'get_user_email_verification_status'"
  in
  (∀ p, TabPFNClassifier.__init__ env p w = (Raise error, w))
  ∧ (∀ p, TabPFNRegressor.__init__ env p w = (Raise error, w)).
Proof.
  apply String.eqb_neq in Hrecorded.
  split; intros p; run_estimator;
    rewrite Hmail; simpl; rewrite Hrecorded; simpl; by rewrite Hnull.
Qed.

Lemma construct_without_auth_handle_witness :
  (TabPFNClassifier.__init__ env_login TabPFNClassifierParams.defaults
     (init env_greeting_fails true world0).2).1
  = Raise (AttributeError
      "'NoneType' object has no attribute 'get_user_email_verification_status'").
Proof.
  exact (f_equal fst
           (proj1 (construct_without_auth_handle env_login
                     (init env_greeting_fails true world0).2
                     "user@example.org" eq_refl ltac:(discriminate) eq_refl)
                  TabPFNClassifierParams.defaults)).
Defined.

(** ** The labels *)

Lemma is_argmax_unique (row : list Q) (k k' : nat) :
  is_argmax row k -> is_argmax row k' -> k = k'.
Proof.
  intros (x & Hx & Hmax & Hfirst) (x' & Hx' & Hmax' & Hfirst').
  destruct (Nat.lt_trichotomy k k') as [Hlt | [-> | Hlt]]; [| done |].
  - pose proof (Hfirst' k x Hlt Hx) as H1.
    pose proof (Hmax k' x' Hx') as H2.
    exfalso. apply (Qlt_irrefl x). by eapply Qlt_le_trans.
  - pose proof (Hfirst k' x' Hlt Hx') as H1.
    pose proof (Hmax' k x Hx) as H2.
    exfalso. apply (Qlt_irrefl x'). by eapply Qlt_le_trans.
Qed.

(** X19.  The labels of the classifier are determined by the
    probabilities: under the conditions of C6, [predict] returns the one
    list that gives, row by row, the first index of a largest entry; every
    label is a valid column index of its row. *)
Theorem classifier_predict_labels_unique (env : Env)
    (self : TabPFNClassifier.t) (X : ndarray) (w : World)
    (h : InferenceClient) (response : gmap string ndarray)
    (m : list (list Q)) (labels : list nat)
    (Hfit : TabPFNClassifier.fitted_ self = true)
    (Hh : inference_handler (g_tabpfn_config w) = Some h)
    (Hans : inference_predict env X "classification"
              (TabPFNClassifier.get_params self) = Ret response)
    (Hprobas : response !! "probas" = Some (Arr2 m))
    (Hlabels : Forall2 is_argmax m labels) :
  (TabPFNClassifier.predict env self X w).1 = Ret labels
  ∧ Forall2 (λ row k, k < length row) m labels.
Proof.
  assert (Hrows : Forall (λ row, row ≠ []) m).
  { clear Hprobas.
    induction Hlabels as [| row k m' l' (x & Hx & _) _ IH]; [done |].
    constructor; [| done].
    intros ->. by rewrite lookup_nil in Hx. }
  destruct (argmax_rows_spec m Hrows) as (computed & Hrun & Hall).
  assert (computed = labels) as ->.
  { clear Hrun Hrows Hprobas. revert computed Hall.
    induction Hlabels as [| row k m' l' Hk _ IH]; intros computed Hall.
    - by apply Forall2_nil_inv_l in Hall.
    - apply Forall2_cons_inv_l in Hall as (k2 & l2 & Hk2 & Hrest & ->).
      f_equal; [by eapply is_argmax_unique | by apply IH]. }
  split.
  - unfold TabPFNClassifier.predict, bind, lift.
    rewrite (classifier_predict_proba_run env self X w h Hfit Hh), Hans.
    simpl. rewrite Hprobas. simpl. done.
  - eapply Forall2_impl; [exact Hlabels |].
    intros row k (x & Hx & _). by eapply lookup_lt_Some.
Qed.

Lemma classifier_predict_labels_unique_witness :
  (TabPFNClassifier.predict (env_answering false true probas_response)
     classifier_fitted X_example world_server).1
  = Ret [1; 0].
Proof.
  apply (classifier_predict_labels_unique
           (env_answering false true probas_response) classifier_fitted
           X_example world_server
           {| inference_service_client := {| client_id := 0 |} |}
           probas_response [[1 # 10; 9 # 10]; [7 # 10; 3 # 10]]%Q [1; 0]
           eq_refl eq_refl eq_refl).
  - vm_compute. reflexivity.
  - repeat constructor.
    + exists (9 # 10)%Q. split_and!; [done | |].
      * intros [| [| j]] y Hy; inversion Hy; subst; by vm_compute.
      * intros [| j] y Hj Hy; [inversion Hy; subst; by vm_compute | lia].
    + exists (7 # 10)%Q. split_and!; [done | |].
      * intros [| [| j]] y Hy; inversion Hy; subst; by vm_compute.
      * intros j y Hj. lia.
Defined.

(** * Properties of [PreprocessorConfig] *)

(** [to_dict] stores every field under its name. *)
Lemma to_dict_lookup (c : PreprocessorConfig) :
  to_dict c !! "name" = Some (PyStr (name c))
  ∧ to_dict c !! "categorical_name" = Some (PyStr (categorical_name c))
  ∧ to_dict c !! "append_original" = Some (PyBool (append_original c))
  ∧ to_dict c !! "subsample_features"
    = Some (match subsample_features c with
            | Some q => PyNum q
            | None => PyStr "None"
            end)
  ∧ to_dict c !! "global_transformer_name"
    = Some (match global_transformer_name c with
            | Some g => PyStr g
            | None => PyStr "None"
            end).
Proof.
  unfold to_dict. split_and!;
    repeat (rewrite lookup_insert_ne by done); by rewrite lookup_insert_eq.
Qed.

(** X20.  [to_dict] loses the difference between no global transformer
    and a global transformer named "None": the two configurations are
    different and have the same dictionary. *)
Theorem to_dict_confuses_none (n cat : string) (append : bool)
    (subsample : option Q) :
  let without := {| name := n; categorical_name := cat;
                    append_original := append;
                    subsample_features := subsample;
                    global_transformer_name := None |} in
  let named := {| name := n; categorical_name := cat;
                  append_original := append;
                  subsample_features := subsample;
                  global_transformer_name := Some "None" |} in
  without ≠ named ∧ to_dict without = to_dict named.
Proof. split; [discriminate | reflexivity]. Qed.

(** X21.  Apart from that, [to_dict] is faithful: two configurations
    whose global transformer is not named "None" and that have the same
    dictionary are equal. *)
Theorem to_dict_injective (c1 c2 : PreprocessorConfig)
    (Hname1 : global_transformer_name c1 ≠ Some "None")
    (Hname2 : global_transformer_name c2 ≠ Some "None")
    (Hdict : to_dict c1 = to_dict c2) :
  c1 = c2.
Proof.
  destruct (to_dict_lookup c1) as (A1 & A2 & A3 & A4 & A5).
  destruct (to_dict_lookup c2) as (B1 & B2 & B3 & B4 & B5).
  rewrite Hdict in A1, A2, A3, A4, A5.
  rewrite B1 in A1. rewrite B2 in A2. rewrite B3 in A3.
  rewrite B4 in A4. rewrite B5 in A5.
  destruct c1 as [n1 k1 a1 s1 g1], c2 as [n2 k2 a2 s2 g2]; simpl in *.
  injection A1 as <-. injection A2 as <-. injection A3 as <-.
  assert (s2 = s1) as -> by (destruct s1, s2; congruence).
  assert (g2 = g1) as -> by (destruct g1, g2; congruence).
  done.
Qed.

Lemma to_dict_injective_witness :
  preprocessor_example (Some (-1)%Q) (Some "svd")
  = preprocessor_example (Some (-1)%Q) (Some "svd").
Proof.
  apply to_dict_injective.
  - discriminate.
  - discriminate.
  - reflexivity.
Defined.

(** X22.  [can_be_cached] answers [True] exactly when
    [subsample_features] is a number that is not positive; it and [__str__]
    raise ([TypeError]) exactly when [subsample_features] is [None]. *)
Theorem can_be_cached_spec (float_str : Q -> string)
    (c : PreprocessorConfig) :
  (can_be_cached c = Some true
   ↔ ∃ q, subsample_features c = Some q ∧ (q <= 0)%Q)
  ∧ (can_be_cached c = Some false
     ↔ ∃ q, subsample_features c = Some q ∧ (0 < q)%Q)
  ∧ (can_be_cached c = None ↔ subsample_features c = None)
  ∧ (__str__ float_str c = None ↔ subsample_features c = None).
Proof.
  unfold can_be_cached, __str__, py_gt.
  destruct (subsample_features c) as [q |]; split_and!; split;
    try done; try (by intros (q' & [=] & _)).
  - intros [= Hle]. exists q. split; [done |].
    apply Qle_bool_iff. by destruct (Qle_bool q 0).
  - intros (q' & [= <-] & Hle). apply Qle_bool_iff in Hle. by rewrite Hle.
  - intros [= Hgt]. exists q. split; [done |].
    apply Qnot_le_lt. intros Hle. apply Qle_bool_iff in Hle.
    by rewrite Hle in Hgt.
  - intros (q' & [= <-] & Hlt). f_equal.
    destruct (Qle_bool q 0) eqn:Hle; [| done].
    apply Qle_bool_iff in Hle. exfalso.
    apply (Qlt_irrefl 0). by eapply Qlt_le_trans.
Qed.

(** X23.  For configurations that can be cached, [__str__] does not show
    [subsample_features]: two of them that agree on the other four fields
    print the same string, whatever Python's formatting of numbers. *)
Theorem str_ignores_subsample (f1 f2 : Q -> string)
    (c1 c2 : PreprocessorConfig)
    (Hname : name c1 = name c2)
    (Hcat : categorical_name c1 = categorical_name c2)
    (Happend : append_original c1 = append_original c2)
    (Hglobal : global_transformer_name c1 = global_transformer_name c2)
    (Hcached1 : can_be_cached c1 = Some true)
    (Hcached2 : can_be_cached c2 = Some true) :
  __str__ f1 c1 = __str__ f2 c2 ∧ is_Some (__str__ f1 c1).
Proof.
  revert Hcached1 Hcached2. unfold can_be_cached, __str__.
  rewrite Hname, Hcat, Happend, Hglobal.
  destruct (subsample_features c1) as [q1 |],
           (subsample_features c2) as [q2 |]; try done.
  intros [= H1] [= H2].
  destruct (py_gt q1 0), (py_gt q2 0); try done.
Qed.

Lemma str_ignores_subsample_witness :
  __str__ (λ _, "-1") (preprocessor_example (Some (-1)%Q) (Some "svd"))
  = __str__ (λ _, "0") (preprocessor_example (Some 0%Q) (Some "svd")).
Proof.
  exact (proj1 (str_ignores_subsample _ _
                  (preprocessor_example (Some (-1)%Q) (Some "svd"))
                  (preprocessor_example (Some 0%Q) (Some "svd"))
                  eq_refl eq_refl eq_refl eq_refl eq_refl eq_refl)).
Defined.
